(** * Master Contact CRM API: a shallow embedding of [main.py]

    The handlers of [main.py] are embedded as functions over an explicit
    collection state.  A handler either returns a value or raises a Python
    exception; both are threaded through a small state-and-exception monad.

    What lives outside [main.py] is taken as a parameter of the Section that
    uses it: [datetime.fromisoformat], the built-in [str] on compound values,
    [strftime], the store's evaluation of one field condition and its sort
    order.  Module [Reference] instantiates them for the concrete runs. *)

From stdpp Require Import base option list strings pretty gmap fin_maps.
From Stdlib Require Import ZArith Ascii String Lia.

Local Open Scope string_scope.
Local Open Scope list_scope.
Local Open Scope Z_scope.

(** ** Python strings

    A [str] is a [string] whose characters stand for the code points below
    256. *)

Module PyStr.

(** [str.isspace] on one code point below 256. *)
Definition isspace (c : ascii) : bool :=
  let n := N_of_ascii c in
  ((9 <=? n) && (n <=? 13) || (28 <=? n) && (n <=? 32)
   || (n =? 133) || (n =? 160))%N.

Fixpoint lstrip (s : string) : string :=
  match s with
  | EmptyString => EmptyString
  | String c r => if isspace c then lstrip r else s
  end.

Fixpoint rev_onto (s acc : string) : string :=
  match s with
  | EmptyString => acc
  | String c r => rev_onto r (String c acc)
  end.

Definition reverse (s : string) : string := rev_onto s EmptyString.

Definition rstrip (s : string) : string := reverse (lstrip (reverse s)).

(** [s.strip()] *)
Definition strip (s : string) : string := rstrip (lstrip s).

(** Truth value of a [str]: non-empty. *)
Definition truthy (s : string) : bool :=
  match s with EmptyString => false | String _ _ => true end.

(** [str.lower] on one code point below 256. *)
Definition lower_char (c : ascii) : ascii :=
  let n := N_of_ascii c in
  if ((65 <=? n) && (n <=? 90)
      || (192 <=? n) && (n <=? 222) && negb (n =? 215))%N
  then ascii_of_N (n + 32) else c.

Fixpoint lower (s : string) : string :=
  match s with
  | EmptyString => EmptyString
  | String c r => String (lower_char c) (lower r)
  end.

(** Every character is white space. *)
Fixpoint blank (s : string) : bool :=
  match s with
  | EmptyString => true
  | String c r => isspace c && blank r
  end.

End PyStr.

(** ** Dates and times *)

(** [datetime.time]; [t_tzinfo] is the UTC offset in seconds of an aware
    value and [None] for a naive one. *)
Record time := mk_time {
  t_hour : Z; t_minute : Z; t_second : Z; t_microsecond : Z;
  t_tzinfo : option Z
}.

(** [datetime.datetime] *)
Record datetime := mk_datetime {
  year : Z; month : Z; day : Z;
  hour : Z; minute : Z; second : Z; microsecond : Z;
  tzinfo : option Z
}.

Module DateTime.

(** [datetime.max], the constant [datetime(9999, 12, 31, 23, 59, 59, 999999)] *)
Definition max : datetime := mk_datetime 9999 12 31 23 59 59 999999 None.

(** [d.time()]: the time of day, without the time zone. *)
Definition time_of (d : datetime) : time :=
  mk_time (hour d) (minute d) (second d) (microsecond d) None.

(** [datetime.combine(d, t)]: when [d] is itself a [datetime], its time
    of day and its time zone are dropped. *)
Definition combine (d : datetime) (t : time) : datetime :=
  mk_datetime (year d) (month d) (day d)
              (t_hour t) (t_minute t) (t_second t) (t_microsecond t)
              (t_tzinfo t).

(** The millisecond a BSON date keeps of a [datetime]. *)
Definition millisecond (d : datetime) : Z := microsecond d / 1000.

Definition eqb (a b : datetime) : bool :=
  (year a =? year b) && (month a =? month b) && (day a =? day b)
  && (hour a =? hour b) && (minute a =? minute b) && (second a =? second b)
  && (microsecond a =? microsecond b)
  && match tzinfo a, tzinfo b with
     | None, None => true
     | Some x, Some y => x =? y
     | _, _ => false
     end.

End DateTime.

(** ** Documents

    A Python [dict] with string keys keeps its keys in insertion order, and
    the export reads that order; documents are association lists with
    distinct keys. *)

#[local] Set Warnings "-register-all".

Inductive value :=
| VNull
| VBool (b : bool)
| VInt (n : Z)
| VStr (s : string)
| VDate (d : datetime)
| VOid (hex : string)
| VList (items : list value)
| VDict (fields : list (string * value)).

Abbreviation doc := (list (string * value)).

Fixpoint value_eqb (v w : value) {struct v} : bool :=
  match v, w with
  | VNull, VNull => true
  | VBool a, VBool b => Bool.eqb a b
  | VInt a, VInt b => a =? b
  | VStr a, VStr b => String.eqb a b
  | VDate a, VDate b => DateTime.eqb a b
  | VOid a, VOid b => String.eqb a b
  | VList a, VList b =>
      (fix items_eqb (a b : list value) {struct a} : bool :=
         match a, b with
         | [], [] => true
         | x :: a', y :: b' => value_eqb x y && items_eqb a' b'
         | _, _ => false
         end) a b
  | VDict a, VDict b =>
      (fix fields_eqb (a b : doc) {struct a} : bool :=
         match a, b with
         | [], [] => true
         | (k, x) :: a', (k', y) :: b' =>
             String.eqb k k' && value_eqb x y && fields_eqb a' b'
         | _, _ => false
         end) a b
  | _, _ => false
  end.

Definition doc_eqb (a b : doc) : bool := value_eqb (VDict a) (VDict b).

Module Dict.

(** [d.get(k)] *)
Fixpoint get (k : string) (d : doc) : option value :=
  match d with
  | [] => None
  | (k', v) :: r => if String.eqb k k' then Some v else get k r
  end.

(** [k in d] *)
Definition has (k : string) (d : doc) : bool :=
  match get k d with Some _ => true | None => false end.

(** [d[k] = v]: an existing key keeps its place, a new one goes last. *)
Fixpoint set (k : string) (v : value) (d : doc) : doc :=
  match d with
  | [] => [(k, v)]
  | (k', v') :: r =>
      if String.eqb k k' then (k', v) :: r else (k', v') :: set k v r
  end.

(** [d.update(u)], entry by entry. *)
Definition update (u d : doc) : doc :=
  fold_left (fun acc kv => set (fst kv) (snd kv) acc) u d.

Definition keys (d : doc) : list string := map fst d.

End Dict.

(** ** Exceptions and the handler monad *)

(** The exceptions the handlers meet.  All of them are instances of
    Python's [Exception], [HTTPException] included. *)
Inductive exn :=
| HTTPException (status_code : Z) (detail : string)
| RequestValidationError (param : string)
| ValueError (msg : string)
| KeyError (key : string)
| InvalidId (oid : string)
| DuplicateKeyError (oid : string)
| WriteError (msg : string).

Inductive result (A : Type) :=
| Ok (a : A)
| Raise (e : exn).
Arguments Ok {A} a.
Arguments Raise {A} e.

(** The [crm_data] collection: its documents in natural order. *)
Abbreviation store := (list doc).

(** A handler runs against the collection and leaves a collection. *)
Definition M (A : Type) : Type := store -> result A * store.

Definition ret {A} (a : A) : M A := fun st => (Ok a, st).

Definition raise {A} (e : exn) : M A := fun st => (Raise e, st).

Definition bind {A B} (m : M A) (k : A -> M B) : M B :=
  fun st =>
    match m st with
    | (Ok a, st') => k a st'
    | (Raise e, st') => (Raise e, st')
    end.

(** [try: body except Exception as e: handler(e)]; every [exn] is an
    [Exception], so every raise of [body] reaches the handler. *)
Definition try_except {A} (body : M A) (handler : exn -> M A) : M A :=
  fun st =>
    match body st with
    | (Ok a, st') => (Ok a, st')
    | (Raise e, st') => handler e st'
    end.

(** A computation that does not touch the collection. *)
Definition lift {A} (r : result A) : M A := fun st => (r, st).

Notation "'do' x <- m ; k" := (bind m (fun x => k))
  (at level 10, x name, m at level 100, k at level 200).

(** The pure fragment: exceptions without state. *)
Definition rbind {A B} (r : result A) (k : A -> result B) : result B :=
  match r with
  | Ok a => k a
  | Raise e => Raise e
  end.

Notation "'let*' x := r 'in' k" := (rbind r (fun x => k))
  (at level 10, x name, r at level 100, k at level 200).

(** ** Object identifiers *)

Module ObjectId.

Definition is_hex (c : ascii) : bool :=
  let n := N_of_ascii c in
  ((48 <=? n) && (n <=? 57) || (97 <=? n) && (n <=? 102)
   || (65 <=? n) && (n <=? 70))%N.

Fixpoint all_hex (s : string) : bool :=
  match s with
  | EmptyString => true
  | String c r => is_hex c && all_hex r
  end.

(** [ObjectId.is_valid(s)] for a [str] without white space: 24
    hexadecimal digits.  (A text of 24 characters with white space between
    pairs of digits is outside this model.) *)
Definition is_valid (s : string) : bool :=
  (String.length s =? 24)%nat && all_hex s.

(** [ObjectId(s)]: the identifier, kept as its lower-case digits (what
    [str] gives back); [InvalidId] when [s] is not well formed. *)
Definition make (s : string) : result string :=
  if is_valid s then Ok (PyStr.lower s) else Raise (InvalidId s).

End ObjectId.

(** ** The collection

    The document store itself is outside [main.py]; these are the
    operations the handlers call on it.  A document is held as the value
    handed over, which is what the store does for the values it keeps
    exactly ([Bson.exact_fields] below): a date is kept to the millisecond
    and as a UTC instant, an integer on 8 bytes, and a name of [$set] with
    a dot is a path.  Statements about what is read back are made within
    these bounds. *)

Module Collection.

Definition has_id (oid : string) (d : doc) : bool :=
  match Dict.get "_id" d with
  | Some (VOid h) => String.eqb h oid
  | _ => false
  end.

(** [find_one({"_id": oid})] *)
Definition find_one (oid : string) : M (option doc) :=
  fun st => (Ok (find (has_id oid) st), st).

(** [insert_one(d)] for a [d] without [_id]: the identifier [oid] the
    driver made for it goes first in the stored document.  The unique
    index on [_id] refuses an identifier already in use. *)
Definition insert_one (oid : string) (d : doc) : M unit :=
  fun st =>
    if existsb (has_id oid) st then (Raise (DuplicateKeyError oid), st)
    else (Ok tt, st ++ [("_id", VOid oid) :: d]).

(** The outcome of [delete_one]: [deleted_count]. *)
Fixpoint remove_first (oid : string) (st : store) : Z * store :=
  match st with
  | [] => (0, [])
  | d :: r =>
      if has_id oid d then (1, r)
      else let '(n, r') := remove_first oid r in (n, d :: r')
  end.

(** [delete_one({"_id": oid})] *)
Definition delete_one (oid : string) : M Z :=
  fun st => let '(n, st') := remove_first oid st in (Ok n, st').

(** The identifier of the updated document [d'] is not the one of [d]. *)
Definition changes_id (d' d : doc) : bool :=
  match Dict.get "_id" d', Dict.get "_id" d with
  | Some v, Some w => negb (value_eqb v w)
  | None, None => false
  | _, _ => true
  end.

(** [{"$set": data}] on the first document with the identifier, for top-level
    names: the fields of [data] are merged, [modified_count] is 1 when the
    document differs afterwards and 0 otherwise; [_id] is immutable.  An
    empty [data] is a no-op (servers from 5.0 on). *)
Fixpoint set_first (oid : string) (data : doc) (st : store)
  : result (Z * store) :=
  match st with
  | [] => Ok (0, [])
  | d :: r =>
      if has_id oid d then
        let d' := Dict.update data d in
        if changes_id d' d
        then Raise (WriteError "would modify the immutable field '_id'")
        else Ok (if doc_eqb d' d then 0 else 1, d' :: r)
      else
        match set_first oid data r with
        | Ok (n, r') => Ok (n, d :: r')
        | Raise e => Raise e
        end
  end.

(** [update_one({"_id": oid}, {"$set": data})]; the result is
    [modified_count]. *)
Definition update_one (oid : string) (data : doc) : M Z :=
  fun st =>
    match set_first oid data st with
    | Ok (n, st') => (Ok n, st')
    | Raise e => (Raise e, st)
    end.

End Collection.

(** ** Query predicates

    The filter [get_history] and [export_excel] hand to [find]: a [dict]
    from a field name, or ["$or"], to a condition. *)

Inductive cond :=
| Regex (pattern : string) (options : option string)
      (* {"$regex": pattern, "$options": options} *)
| Equals (v : string)                      (* a plain value *)
| Range (gte lte : datetime)               (* {"$gte": gte, "$lte": lte} *)
| TypeIs (t : string)                      (* {"$type": t} *)
| Not (c : cond).                          (* {"$not": c} *)

Inductive clause :=
| Field (c : cond)                         (* key: c *)
| Or (alts : list (string * cond)).        (* "$or": [{field: c}, ...] *)

Abbreviation query := (gmap string clause).

Section Find.

(** The store's verdict on one condition of one field of a document. *)
Variable holds : doc -> string -> cond -> bool.

(** [cursor.sort(key, -1)], the store's descending order on a field. *)
Variable sort_desc : string -> list doc -> list doc.

Definition alt_holds (d : doc) (a : string * cond) : bool :=
  holds d (fst a) (snd a).

Definition clause_holds (d : doc) (kc : string * clause) : bool :=
  match snd kc with
  | Field c => holds d (fst kc) c
  | Or alts => existsb (alt_holds d) alts
  end.

(** A document matches a query when it satisfies every top-level entry;
    an ["$or"] entry asks for one of its alternatives. *)
Definition matches (q : query) (d : doc) : bool :=
  forallb (clause_holds d) (map_to_list q).

(** [find(q)], in natural order. *)
Definition find_all (q : query) (st : store) : list doc :=
  filter (fun d => matches q d = true) st.

(** [count_documents(q)] *)
Definition count_documents (q : query) (st : store) : Z :=
  Z.of_nat (List.length (find_all q st)).

(** [find(q).sort("created_at", -1).skip(skip).limit(limit)] for
    [skip >= 0] and [limit > 0] *)
Definition find_page (q : query) (skip limit : Z) (st : store) : list doc :=
  firstn (Z.to_nat limit)
         (skipn (Z.to_nat skip) (sort_desc "created_at" (find_all q st))).

End Find.

(** ** Requests *)

(** The form of [POST /submit].  A parameter declared [Form(...)] is
    required; one declared [Form(None)] may be absent. *)
Module Form.
Record t := mk {
  company_name : string;
  name : string;
  designation : string;
  mobile : string;
  mobile2 : option string;
  landline : option string;
  email : string;
  email2 : option string;
  linkedin : option string;
  address : string;
  existing_client : string;
  partner_name : option string;
  call_date : string;
  lead_entry_date : string;
  comments : option string;
  disposition : string
}.
End Form.

(** The query parameters of [GET /get_history]. *)
Module Params.
Record t := mk {
  page : Z;
  limit : Z;
  search : string;
  company : string;
  phone : string;
  disposition : string;
  call_start : string;
  call_end : string;
  lead_start : string;
  lead_end : string;
  start : string;
  end_ : string
}.
End Params.

(** What [get_history] returns. *)
Record page_result := mk_page_result {
  r_history : list doc;
  r_page : Z;
  r_pages : Z;
  r_total : Z
}.

(** A [pandas.DataFrame], column by column; [None] is a missing cell. *)
Record DataFrame := mk_frame {
  n_rows : nat;
  columns : list (string * list (option value))
}.

(** What [export_excel] returns, a [FileResponse]: the temporary file it
    serves, the download name, and the sheet [to_excel] wrote to the file. *)
Record file_response := mk_file_response {
  path : string;
  filename : string;
  sheet : DataFrame
}.

Module Frame.

(** The keys of the records in the order they are first seen. *)
Definition first_seen (records : list doc) : list string :=
  fold_left
    (fun acc d =>
       fold_left
         (fun acc k => if existsb (String.eqb k) acc then acc else acc ++ [k])
         (Dict.keys d) acc)
    records [].

(** [pd.DataFrame(records)] *)
Definition of_records (records : list doc) : DataFrame :=
  mk_frame (List.length records)
           (map (fun k => (k, map (Dict.get k) records)) (first_seen records)).

(** [k in df.columns] *)
Definition has_column (k : string) (df : DataFrame) : bool :=
  existsb (fun c => String.eqb k (fst c)) (columns df).

(** The frame without the columns named [k]. *)
Definition remove_column (k : string) (df : DataFrame) : DataFrame :=
  mk_frame (n_rows df)
           (List.filter (fun c => negb (String.eqb k (fst c))) (columns df)).

(** [df.drop(columns=[k])]: [KeyError] when no column is named [k]. *)
Definition drop (k : string) (df : DataFrame) : result DataFrame :=
  if has_column k df then Ok (remove_column k df) else Raise (KeyError k).

End Frame.

(** ** The handlers *)

Section Handlers.

(** [datetime.fromisoformat]; [None] stands for its [ValueError]. *)
Variable fromisoformat : string -> option datetime.

(** The built-in [str] on a value. *)
Variable py_str : value -> string.

(** [str(e)] on an exception. *)
Variable exn_str : exn -> string.

(** [d.strftime(format)] *)
Variable strftime : string -> datetime -> string.

Variable holds : doc -> string -> cond -> bool.
Variable sort_desc : string -> list doc -> list doc.

(** [tempfile.NamedTemporaryFile(delete=False, suffix=".xlsx")]: the name
    of the file it creates, or what it raises. *)
Variable tmp_file : result string.

(** [df.to_excel(name, index=False)]: done, or what it raises. *)
Variable to_excel : DataFrame -> string -> result unit.

Definition parse_date (s : string) : result datetime :=
  match fromisoformat s with
  | Some d => Ok d
  | None => Raise (ValueError "Invalid isoformat string")
  end.

(** *** [submit_contact] *)

(** [x.strip() if x else None] *)
Definition strip_or_none (x : option string) : value :=
  match x with
  | Some s => if PyStr.truthy s then VStr (PyStr.strip s) else VNull
  | None => VNull
  end.

(** [x.strip().lower() if x else None] *)
Definition strip_lower_or_none (x : option string) : value :=
  match x with
  | Some s =>
      if PyStr.truthy s then VStr (PyStr.lower (PyStr.strip s)) else VNull
  | None => VNull
  end.

(** The [contact] dictionary of lines 123-144. *)
Definition contact_of (f : Form.t) (call lead utcnow : datetime) : doc :=
  [ ("company_name", VStr (PyStr.strip (Form.company_name f)));
    ("name", VStr (PyStr.strip (Form.name f)));
    ("designation", VStr (PyStr.strip (Form.designation f)));
    ("mobile", VStr (PyStr.strip (Form.mobile f)));
    ("mobile2", strip_or_none (Form.mobile2 f));
    ("landline", strip_or_none (Form.landline f));
    ("email", VStr (PyStr.lower (PyStr.strip (Form.email f))));
    ("email2", strip_lower_or_none (Form.email2 f));
    ("linkedin", strip_or_none (Form.linkedin f));
    ("address", VStr (PyStr.strip (Form.address f)));
    ("existing_client", VStr (Form.existing_client f));
    ("partner_name", strip_or_none (Form.partner_name f));
    ("call_date", VDate call);
    ("lead_entry_date", VDate lead);
    ("comments", strip_or_none (Form.comments f));
    ("disposition", VStr (Form.disposition f));
    ("created_at", VDate utcnow) ].

(** [utcnow] is the server clock at the call, [oid] the identifier the
    driver makes for the new document. *)
Definition submit_contact (utcnow : datetime) (oid : string) (f : Form.t)
  : M doc :=
  try_except
    (do call_date_parsed <- lift (parse_date (Form.call_date f));
     do lead_entry_date_parsed <- lift (parse_date (Form.lead_entry_date f));
     do inserted <- Collection.insert_one oid
          (contact_of f call_date_parsed lead_entry_date_parsed utcnow);
     ret [ ("status", VStr "success");
           ("message", VStr "Contact saved successfully") ])
    (fun e =>
       raise (HTTPException 500 "Server error while saving contact")).

(** *** [get_history] *)

(** [query.get("$or", [])] *)
Definition get_or (q : query) : list (string * cond) :=
  match q !! "$or" with
  | Some (Or alts) => alts
  | _ => []
  end.

(** One date-range filter: [if a and b: query[key] = {"$gte": ..., "$lte": ...}];
    [upper] is what the code does to the parsed end. *)
Definition add_range (key a b : string) (upper : datetime -> datetime)
           (q : query) : result query :=
  if PyStr.truthy a && PyStr.truthy b then
    let* lo := parse_date a in
    let* hi := parse_date b in
    Ok (<[key := Field (Range lo (upper hi))]> q)
  else Ok q.

(** [datetime.combine(d, datetime.max.time())] *)
Definition end_of_day (d : datetime) : datetime :=
  DateTime.combine d (DateTime.time_of DateTime.max).

(** The query of lines 169-214. *)
Definition build_query (p : Params.t) : result query :=
  let q : query := ∅ in
  let q :=
    if PyStr.truthy (PyStr.strip (Params.search p)) then
      <["$or" := Or [ ("name", Regex (Params.search p) (Some "i"));
                      ("company_name", Regex (Params.search p) (Some "i"));
                      ("mobile", Regex (Params.search p) None);
                      ("email", Regex (Params.search p) (Some "i")) ]]> q
    else q in
  let q :=
    if PyStr.truthy (PyStr.strip (Params.company p)) then
      <["company_name" := Field (Regex (Params.company p) (Some "i"))]> q
    else q in
  let q :=
    if PyStr.truthy (PyStr.strip (Params.phone p)) then
      <["$or" := Or (get_or q ++ [ ("mobile", Regex (Params.phone p) None);
                                   ("mobile2", Regex (Params.phone p) None) ])]> q
    else q in
  let q :=
    if PyStr.truthy (PyStr.strip (Params.disposition p)) then
      <["disposition" := Field (Equals (Params.disposition p))]> q
    else q in
  let* q := add_range "call_date" (Params.call_start p) (Params.call_end p)
                      (fun d => d) q in
  let* q := add_range "lead_entry_date" (Params.lead_start p)
                      (Params.lead_end p) (fun d => d) q in
  add_range "created_at" (Params.start p) (Params.end_ p) end_of_day q.

(** [skip = (page - 1) * limit] *)
Definition skip_of (page limit : Z) : Z := (page - 1) * limit.

(** [pages = (total + limit - 1) // limit] *)
Definition pages_of (total limit : Z) : Z := (total + limit - 1) / limit.

(** [doc["_id"] = str(doc["_id"])] *)
Definition str_of_value (v : value) : string :=
  match v with
  | VOid h => h
  | VStr s => s
  | _ => py_str v
  end.

Definition stringify_id (d : doc) : result doc :=
  match Dict.get "_id" d with
  | Some v => Ok (Dict.set "_id" (VStr (str_of_value v)) d)
  | None => Raise (KeyError "_id")
  end.

Fixpoint stringify_ids (l : list doc) : result (list doc) :=
  match l with
  | [] => Ok []
  | d :: r =>
      let* d' := stringify_id d in
      let* r' := stringify_ids r in
      Ok (d' :: r')
  end.

(** The declared bounds [page: ge=1] and [limit: ge=1, le=200], checked
    before the body runs. *)
Definition check_paging (p : Params.t) : result unit :=
  if Params.page p <? 1 then Raise (RequestValidationError "page")
  else if (Params.limit p <? 1) || (200 <? Params.limit p)
       then Raise (RequestValidationError "limit")
       else Ok tt.

Definition get_history (p : Params.t) : M page_result :=
  do checked <- lift (check_paging p);
  do q <- lift (build_query p);
  let skip := skip_of (Params.page p) (Params.limit p) in
  fun st =>
    let cursor := find_page holds sort_desc q skip (Params.limit p) st in
    match stringify_ids cursor with
    | Raise e => (Raise e, st)
    | Ok history =>
        let total := count_documents holds q st in
        let pages := pages_of total (Params.limit p) in
        (Ok (mk_page_result history (Params.page p) pages total), st)
    end.

(** *** [update_contact] *)

(** [if field in data and isinstance(data[field], str):
      data[field] = datetime.fromisoformat(data[field])] *)
Definition reparse (field : string) (data : doc) : result doc :=
  match Dict.get field data with
  | Some (VStr s) =>
      let* d := parse_date s in Ok (Dict.set field (VDate d) data)
  | _ => Ok data
  end.

Definition reparse_dates (data : doc) : result doc :=
  let* data := reparse "call_date" data in
  reparse "lead_entry_date" data.

Definition update_contact (id : string) (data : doc) : M doc :=
  if negb (ObjectId.is_valid id) then raise (HTTPException 400 "Invalid ID")
  else
    do data <- lift (reparse_dates data);
    do oid <- lift (ObjectId.make id);
    do modified_count <- Collection.update_one oid data;
    if modified_count =? 0
    then raise (HTTPException 404 "Contact not found or no changes made")
    else ret [ ("status", VStr "success");
               ("message", VStr "Contact updated") ].

(** *** [export_excel] *)

Definition sanitize_value (v : value) : value :=
  match v with
  | VOid h => VStr h
  | VDate d => VStr (strftime "%Y-%m-%d %H:%M:%S" d)
  | VNull => VStr ""
  | VList _ | VDict _ => VStr (py_str v)
  | _ => v
  end.

Definition sanitize (d : doc) : doc :=
  fold_left (fun safe kv => Dict.set (fst kv) (sanitize_value (snd kv)) safe)
            d [].

(** [now] is the server's local clock when the file is named. *)
Definition export_excel (now : datetime) : M file_response :=
  try_except
    (fun st =>
       let cursor_good :=
         sort_desc "created_at"
           (find_all holds {["created_at" := Field (TypeIs "date")]} st) in
       let cursor_bad :=
         find_all holds {["created_at" := Field (Not (TypeIs "date"))]} st in
       let data := cursor_good ++ cursor_bad in
       let cleaned := map sanitize data in
       let df := Frame.of_records cleaned in
       lift
         (let* df :=
            if Frame.has_column "created_at" df
            then Frame.drop "created_at" df else Ok df in
          let* file_path := tmp_file in
          let* written := to_excel df file_path in
          Ok (mk_file_response
                file_path
                (String.append "Master_Export_"
                   (String.append (strftime "%Y%m%d_%H%M%S" now) ".xlsx"))
                df)) st)
    (fun e => raise (HTTPException 500 "Excel export failed")).

(** *** [get_contact] *)

Definition get_contact (contact_id : string) : M doc :=
  if negb (ObjectId.is_valid contact_id)
  then raise (HTTPException 400 "Invalid ID")
  else
    do oid <- lift (ObjectId.make contact_id);
    do contact <- Collection.find_one oid;
    match contact with
    | None => raise (HTTPException 404 "Contact not found")
    | Some c => lift (stringify_id c)
    end.

(** *** [delete_contact] *)

Definition delete_contact (contact_id : string) : M doc :=
  try_except
    (do obj_id <- lift (ObjectId.make contact_id);
     do deleted_count <- Collection.delete_one obj_id;
     if deleted_count =? 1
     then ret [ ("status", VStr "success");
                ("message", VStr "Contact deleted successfully");
                ("deleted_count", VInt deleted_count) ]
     else raise (HTTPException 404 "Contact not found"))
    (fun e =>
       raise (HTTPException 500
                (String.append "Error deleting contact: " (exn_str e)))).

End Handlers.

(** ** Sequences of requests *)

Inductive request :=
| Submit (utcnow : datetime) (oid : string) (f : Form.t)
| History (p : Params.t)
| Update (id : string) (data : doc)
| Export (now : datetime)
| Get (contact_id : string)
| Delete (contact_id : string).

Section Server.

Variable fromisoformat : string -> option datetime.
Variable py_str : value -> string.
Variable exn_str : exn -> string.
Variable strftime : string -> datetime -> string.
Variable holds : doc -> string -> cond -> bool.
Variable sort_desc : string -> list doc -> list doc.
Variable tmp_file : result string.
Variable to_excel : DataFrame -> string -> result unit.

(** The collection after one request. *)
Definition serve (r : request) (st : store) : store :=
  match r with
  | Submit utcnow oid f => snd (submit_contact fromisoformat utcnow oid f st)
  | History p => snd (get_history fromisoformat py_str holds sort_desc p st)
  | Update id data => snd (update_contact fromisoformat id data st)
  | Export now =>
      snd (export_excel py_str strftime holds sort_desc tmp_file to_excel now st)
  | Get contact_id => snd (get_contact py_str contact_id st)
  | Delete contact_id => snd (delete_contact exn_str contact_id st)
  end.

(** The request is an update whose field map names [created_at]. *)
Definition names_created_at (r : request) : bool :=
  match r with
  | Update _ data => Dict.has "created_at" data
  | _ => false
  end.

(** The collection after a sequence of requests. *)
Definition serve_all (rs : list request) (st : store) : store :=
  fold_left (fun st r => serve r st) rs st.

End Server.

(** ** A reference instance of the parameters

    One instance of what the handlers take as parameters, to run them on
    concrete requests.  Each function agrees with the library function it
    stands for on the inputs named in its comment.  The theorems hold for
    every instance. *)

Module Reference.

Definition digit (c : ascii) : option Z :=
  let n := N_of_ascii c in
  if ((48 <=? n) && (n <=? 57))%N then Some (Z.of_N n - 48) else None.

Fixpoint number (acc : Z) (s : string) : option Z :=
  match s with
  | EmptyString => Some acc
  | String c r =>
      match digit c with
      | Some k => number (10 * acc + k) r
      | None => None
      end
  end.

Definition is_leap (y : Z) : bool :=
  ((y mod 4 =? 0) && negb (y mod 100 =? 0)) || (y mod 400 =? 0).

Definition days_in_month (y m : Z) : Z :=
  if m =? 2 then (if is_leap y then 29 else 28)
  else if (m =? 4) || (m =? 6) || (m =? 9) || (m =? 11) then 30 else 31.

Definition date_of (s : string) : option (Z * Z * Z) :=
  if negb (String.length s =? 10)%nat then None else
  match number 0 (substring 0 4 s), number 0 (substring 5 2 s),
        number 0 (substring 8 2 s) with
  | Some y, Some m, Some d =>
      if String.eqb (substring 4 1 s) "-" && String.eqb (substring 7 1 s) "-"
         && (1 <=? y) && (1 <=? m) && (m <=? 12)
         && (1 <=? d) && (d <=? days_in_month y m)
      then Some (y, m, d) else None
  | _, _, _ => None
  end.

Definition clock_of (s : string) : option (Z * Z * Z) :=
  if negb (String.length s =? 8)%nat then None else
  match number 0 (substring 0 2 s), number 0 (substring 3 2 s),
        number 0 (substring 6 2 s) with
  | Some h, Some m, Some sec =>
      if String.eqb (substring 2 1 s) ":" && String.eqb (substring 5 1 s) ":"
         && (h <=? 23) && (m <=? 59) && (sec <=? 59)
      then Some (h, m, sec) else None
  | _, _, _ => None
  end.

(** [datetime.fromisoformat] on the two shapes [YYYY-MM-DD] and
    [YYYY-MM-DD?HH:MM:SS] (any one character between date and time), and
    on strings shorter than ten characters, which it rejects. *)
Definition fromisoformat (s : string) : option datetime :=
  match date_of (substring 0 10 s) with
  | Some (y, m, d) =>
      if (String.length s =? 10)%nat
      then Some (mk_datetime y m d 0 0 0 0 None)
      else
        match clock_of (substring 11 (String.length s - 11) s) with
        | Some (h, mi, sec) => Some (mk_datetime y m d h mi sec 0 None)
        | None => None
        end
  | None => None
  end.

(** Naive datetimes in calendar order. *)
Definition stamp (d : datetime) : list Z :=
  [year d; month d; day d; hour d; minute d; second d; microsecond d].

Fixpoint lex_leb (a b : list Z) : bool :=
  match a, b with
  | [], _ => true
  | _ :: _, [] => false
  | x :: a', y :: b' => (x <? y) || ((x =? y) && lex_leb a' b')
  end.

Definition date_leb (a b : datetime) : bool := lex_leb (stamp a) (stamp b).

(** [needle in hay] *)
Fixpoint contains (needle hay : string) : bool :=
  String.prefix needle hay
  || match hay with
     | EmptyString => false
     | String _ r => contains needle r
     end.

(** The store's verdict on one condition, for a pattern that is plain
    text (no regular-expression operator), a scalar field and naive
    dates. *)
Fixpoint holds (d : doc) (field : string) (c : cond) : bool :=
  match c with
  | Regex pattern options =>
      match Dict.get field d, options with
      | Some (VStr s), Some "i" =>
          contains (PyStr.lower pattern) (PyStr.lower s)
      | Some (VStr s), _ => contains pattern s
      | _, _ => false
      end
  | Equals v =>
      match Dict.get field d with
      | Some (VStr s) => String.eqb s v
      | _ => false
      end
  | Range gte lte =>
      match Dict.get field d with
      | Some (VDate x) => date_leb gte x && date_leb x lte
      | _ => false
      end
  | TypeIs t =>
      match Dict.get field d with
      | Some (VDate _) => String.eqb t "date"
      | _ => false
      end
  | Not c' => negb (holds d field c')
  end.

Definition newer (key : string) (a b : doc) : bool :=
  match Dict.get key a, Dict.get key b with
  | Some (VDate x), Some (VDate y) => negb (date_leb x y)
  | Some (VDate _), _ => true
  | _, _ => false
  end.

Fixpoint place (key : string) (d : doc) (sorted : list doc) : list doc :=
  match sorted with
  | [] => [d]
  | x :: r => if newer key x d then x :: place key d r else d :: sorted
  end.

(** [sort(key, -1)] on date fields: newest first, documents without a
    date last. *)
Definition sort_desc (key : string) (l : list doc) : list doc :=
  fold_right (place key) [] l.

Definition two_digits (n : Z) : string :=
  if n <? 10 then String.append "0" (pretty n) else pretty n.

Definition four_digits (n : Z) : string :=
  if n <? 10 then String.append "000" (pretty n)
  else if n <? 100 then String.append "00" (pretty n)
  else if n <? 1000 then String.append "0" (pretty n)
  else pretty n.

(** [strftime] for the directives [%Y %m %d %H %M %S]. *)
Fixpoint strftime (format : string) (d : datetime) : string :=
  match format with
  | EmptyString => EmptyString
  | String "%" (String c r) =>
      let field :=
        if Ascii.eqb c "Y" then four_digits (year d)
        else if Ascii.eqb c "m" then two_digits (month d)
        else if Ascii.eqb c "d" then two_digits (day d)
        else if Ascii.eqb c "H" then two_digits (hour d)
        else if Ascii.eqb c "M" then two_digits (minute d)
        else if Ascii.eqb c "S" then two_digits (second d)
        else String "%" (String c EmptyString) in
      String.append field (strftime r d)
  | String c r => String c (strftime r d)
  end.

(** [str] on the scalars: [None], booleans, integers, text, identifiers
    and naive dates on a whole second; a compound value is not rendered. *)
Definition py_str (v : value) : string :=
  match v with
  | VNull => "None"
  | VBool true => "True"
  | VBool false => "False"
  | VInt n => pretty n
  | VStr s => s
  | VOid h => h
  | VDate d => strftime "%Y-%m-%d %H:%M:%S" d
  | VList _ => "[...]"
  | VDict _ => "{...}"
  end.

(** [str(e)]: Starlette's ["status: detail"] for an [HTTPException], the
    message for the others (identifiers and keys taken without quotes or
    escapes in them). *)
Definition exn_str (e : exn) : string :=
  match e with
  | HTTPException status_code detail =>
      String.append (pretty status_code) (String.append ": " detail)
  | RequestValidationError param => param
  | ValueError msg => msg
  | KeyError key => String.append "'" (String.append key "'")
  | InvalidId oid =>
      String.append "'"
        (String.append oid
           "' is not a valid ObjectId, it must be a 12-byte input or a 24-character hex string")
  | DuplicateKeyError oid =>
      String.append "E11000 duplicate key error, _id: " oid
  | WriteError msg => msg
  end.

(** A temporary file that is created, and a sheet that is written. *)
Definition tmp_file : result string := Ok "/tmp/tmpq3k9x2vd.xlsx".

Definition to_excel (df : DataFrame) (name : string) : result unit := Ok tt.

End Reference.


(** ** Words of the specification *)

(** [k] is the ceiling of [n / d]: the least integer with [n <= k * d]. *)
Definition is_ceiling (n d k : Z) : Prop :=
  n <= k * d /\ forall j : Z, n <= j * d -> k <= j.

(** ** Concrete requests *)

Module Examples.

(** A search with a phone filter and a creation-date range. *)
Definition search_and_phone : Params.t :=
  Params.mk 1 50 "acme" "" "98" "" "" "" "" "" "2024-01-01" "2024-01-31".

(** A call-date range, a lead-entry range with one end, a creation range. *)
Definition some_ranges : Params.t :=
  Params.mk 1 50 "" "" "" "" "2024-03-01" "2024-03-31" "2024-03-01" ""
            "2024-01-01" "2024-01-31".

(** A call-date range whose end is not a date. *)
Definition bad_call_end : Params.t :=
  Params.mk 1 50 "" "" "" "" "2024-03-01" "soon" "" "" "" "".

Definition acme_form : Form.t :=
  Form.mk "ACME Corp" "Jo Doe" "CTO" "9876543210" None None
          "Jo.Doe@ACME.com" None None "1 Main St" "No" None
          "2024-01-15" "2024-01-10" None "Interested".

(** The name is white space only. *)
Definition blank_name_form : Form.t :=
  Form.mk "ACME Corp" "   " "CTO" "9876543210" None None
          "Jo.Doe@ACME.com" None None "1 Main St" "No" None
          "2024-01-15" "2024-01-10" None "Interested".

(** The call date is not a date. *)
Definition bad_date_form : Form.t :=
  Form.mk "ACME Corp" "Jo Doe" "CTO" "9876543210" None None
          "Jo.Doe@ACME.com" None None "1 Main St" "No" None
          "tomorrow" "2024-01-10" None "Interested".

(** The second mobile number is white space only. *)
Definition blank_mobile2_form : Form.t :=
  Form.mk "ACME Corp" "Jo Doe" "CTO" "9876543210" (Some "   ") None
          "Jo.Doe@ACME.com" None None "1 Main St" "No" None
          "2024-01-15" "2024-01-10" None "Interested".

Definition an_id : string := "507f1f77bcf86cd799439011".
Definition another_id : string := "507f1f77bcf86cd799439012".

Definition noon : datetime := mk_datetime 2024 5 1 12 0 0 0 None.
Definition later : datetime := mk_datetime 2024 6 2 9 30 0 0 None.

(** A collection holding one contact, created at [noon]. *)
Definition one_contact : store :=
  [ [ ("_id", VOid an_id); ("company_name", VStr "ACME Corp");
      ("name", VStr "Jo Doe"); ("mobile", VStr "9876543210");
      ("disposition", VStr "Interested"); ("created_at", VDate noon) ] ].

End Examples.


(** ** [login] *)

(** The body of [POST /login]: [LoginRequest], with its two [str] fields. *)
Record LoginRequest := mk_login {
  login_email : string;
  login_password : string
}.

Module Login.

(** [s.split("@")[0]]: what stands before the first ["@"], all of [s] when
    there is none. *)
Fixpoint before_at (s : string) : string :=
  match s with
  | EmptyString => EmptyString
  | String c r => if Ascii.eqb c "@" then EmptyString else String c (before_at r)
  end.

(** [s.replace(".", " ")] *)
Fixpoint dots_to_spaces (s : string) : string :=
  match s with
  | EmptyString => EmptyString
  | String c r => String (if Ascii.eqb c "." then " "%char else c) (dots_to_spaces r)
  end.

(** The characters of a [str], one string each. *)
Fixpoint chars (s : string) : list string :=
  match s with
  | EmptyString => []
  | String c r => String c EmptyString :: chars r
  end.

(** [e.strip().lower()] for each [e]; [None] stands for the
    [AttributeError] of an [e] that is not a [str]. *)
Fixpoint normalized (items : list value) : option (list string) :=
  match items with
  | [] => Some []
  | VStr e :: r =>
      match normalized r with
      | Some l => Some (PyStr.lower (PyStr.strip e) :: l)
      | None => None
      end
  | _ :: _ => None
  end.

(** [[e.strip().lower() for e in user_doc.get("allowed_emails", [])]]:
    a list gives its items, a [str] its characters, a [dict] its keys;
    [None] stands for the [TypeError] of a value that cannot be iterated
    and for the [AttributeError] of an item without [strip]. *)
Definition allowed_emails (user_doc : doc) : option (list string) :=
  match Dict.get "allowed_emails" user_doc with
  | None => Some []
  | Some (VList items) => normalized items
  | Some (VStr s) => Some (map (fun e => PyStr.lower (PyStr.strip e)) (chars s))
  | Some (VDict fields) =>
      Some (map (fun e => PyStr.lower (PyStr.strip e)) (Dict.keys fields))
  | Some _ => None
  end.

(** [password == user_doc.get("password", "")] *)
Definition password_matches (password : string) (user_doc : doc) : bool :=
  match Dict.get "password" user_doc with
  | Some (VStr p) => String.eqb password p
  | Some _ => false
  | None => String.eqb password ""
  end.

End Login.

Section LoginHandler.

(** [str.title] *)
Variable title : string -> string.

(** [users] is the [users] collection, in natural order; [find_one({})]
  gives its first document.  An [HTTPException] raised in the [try]
  block passes [except HTTPException: raise] unchanged; anything else
  raised there becomes the 500 of [except Exception]. *)
Definition login (users : store) (request : LoginRequest) : result doc :=
let email := PyStr.lower (PyStr.strip (login_email request)) in
let password := login_password request in
if negb (PyStr.truthy email) || negb (PyStr.truthy password)
then Raise (HTTPException 400 "Email and password required")
else
  match users with
  | [] | [] :: _ => Raise (HTTPException 500 "User config not found")
  | user_doc :: _ =>
      match Login.allowed_emails user_doc with
      | None => Raise (HTTPException 500 "Server error")
      | Some allowed =>
          if existsb (String.eqb email) allowed
             && Login.password_matches password user_doc
          then
            let username :=
              title (Login.dots_to_spaces (Login.before_at email)) in
            Ok [ ("status", VStr "success");
                 ("message", VStr "Login successful");
                 ("user", VStr username) ]
          else Raise (HTTPException 401 "Invalid email or password")
      end
  end.

End LoginHandler.

(** ** Cells of a sheet *)

(** The value is one a spreadsheet cell takes as it is: a text, a number
    or a boolean. *)
Definition is_scalar (v : value) : bool :=
  match v with
  | VStr _ | VInt _ | VBool _ => true
  | _ => false
  end.

(** ** What the store keeps exactly *)

Module Bson.

(** A field name the store takes as one top-level name: not empty, no
    leading ["$"], no dot (a dot makes it a path) and no NUL. *)
Fixpoint no_dot_or_nul (s : string) : bool :=
  match s with
  | EmptyString => true
  | String c r =>
      negb (Ascii.eqb c ".") && negb (Ascii.eqb c "000") && no_dot_or_nul r
  end.

Definition plain_key (k : string) : bool :=
  match k with
  | EmptyString => false
  | String c _ => negb (Ascii.eqb c "$") && no_dot_or_nul k
  end.

(** An integer the driver can encode: 8 bytes, signed. *)
Definition int64 (n : Z) : bool := (- 2 ^ 63 <=? n) && (n <? 2 ^ 63).

(** A date the store gives back as it got it: naive, on a whole
    millisecond. *)
Definition exact_date (d : datetime) : bool :=
  match tzinfo d with
  | None => microsecond d mod 1000 =? 0
  | Some _ => false
  end.

Fixpoint exact_value (v : value) {struct v} : bool :=
  match v with
  | VInt n => int64 n
  | VDate d => exact_date d
  | VList items =>
      (fix all_exact (l : list value) : bool :=
         match l with
         | [] => true
         | x :: r => exact_value x && all_exact r
         end) items
  | VDict fields =>
      (fix all_exact (l : doc) : bool :=
         match l with
         | [] => true
         | (k, x) :: r => plain_key k && exact_value x && all_exact r
         end) fields
  | _ => true
  end.

(** A field map whose names are top-level names and whose values the store
    keeps as they are. *)
Definition exact_fields (data : doc) : bool := exact_value (VDict data).

(** Two dates that are one date to the store: the same naive date and time
    down to the millisecond. *)
Definition same_millisecond (a b : datetime) : Prop :=
  year a = year b /\ month a = month b /\ day a = day b
  /\ hour a = hour b /\ minute a = minute b /\ second a = second b
  /\ DateTime.millisecond a = DateTime.millisecond b
  /\ tzinfo a = None /\ tzinfo b = None.

End Bson.

(** ** Identifiers that are surely malformed *)

Module BadId.

(** White space as [bytes.fromhex] skips it. *)
Definition is_hex_space (c : ascii) : bool :=
  let n := N_of_ascii c in ((9 <=? n) && (n <=? 13) || (n =? 32))%N.

(** Some character is neither a hexadecimal digit nor such white space. *)
Fixpoint has_foreign_char (s : string) : bool :=
  match s with
  | EmptyString => false
  | String c r =>
      negb (ObjectId.is_hex c || is_hex_space c) || has_foreign_char r
  end.

(** A text that is no identifier whatever the reading of white space: it
    has not 24 characters, or it has a character that is neither a digit
    nor white space. *)
Definition malformed (s : string) : bool :=
  negb (String.length s =? 24)%nat || has_foreign_char s.

End BadId.

(** ** A reading of [$regex] for plain text and the dot

    The store's search of a pattern in a text, for a pattern made of
    letters, digits, spaces, ["@"] and the dot, which stands for any
    character but a line feed. *)

Module RegexReference.

Definition char_matches (ignore_case : bool) (pc c : ascii) : bool :=
  if Ascii.eqb pc "." then negb (Ascii.eqb c "010")
  else if ignore_case
       then Ascii.eqb (PyStr.lower_char pc) (PyStr.lower_char c)
       else Ascii.eqb pc c.

(** The pattern matches at the start of the text. *)
Fixpoint match_here (ignore_case : bool) (pattern s : string) : bool :=
  match pattern with
  | EmptyString => true
  | String pc pr =>
      match s with
      | EmptyString => false
      | String c r =>
          char_matches ignore_case pc c && match_here ignore_case pr r
      end
  end.

(** The pattern matches somewhere in the text. *)
Fixpoint search (ignore_case : bool) (pattern s : string) : bool :=
  match_here ignore_case pattern s
  || match s with
     | EmptyString => false
     | String _ r => search ignore_case pattern r
     end.

(** [Reference.holds], with [$regex] read as a pattern. *)
Definition holds (d : doc) (field : string) (c : cond) : bool :=
  match c with
  | Regex pattern options =>
      match Dict.get field d, options with
      | Some (VStr s), Some "i" => search true pattern s
      | Some (VStr s), _ => search false pattern s
      | _, _ => false
      end
  | _ => Reference.holds d field c
  end.

End RegexReference.

(** ** Words of the specification: the search alternatives

    The free-text search and the phone filter as substring tests:
    case-insensitive on name, company and email, plain on the phones. *)

Module SubstringReading.

Definition text_of (field : string) (d : doc) : string :=
  match Dict.get field d with
  | Some (VStr s) => s
  | _ => EmptyString
  end.

Definition contains_ci (needle hay : string) : bool :=
  Reference.contains (PyStr.lower needle) (PyStr.lower hay).

Definition group_holds (search phone : string) (d : doc) : bool :=
  contains_ci search (text_of "name" d)
  || contains_ci search (text_of "company_name" d)
  || Reference.contains search (text_of "mobile" d)
  || contains_ci search (text_of "email" d)
  || Reference.contains phone (text_of "mobile" d)
  || Reference.contains phone (text_of "mobile2" d).

End SubstringReading.

(** ** The entry a date range leaves in the predicate *)

Section RangeEntry.

Variable fromisoformat : string -> option datetime.

(** What a range with ends [a] and [b] puts under its key: nothing unless
    both are non-empty, the parsed bounds otherwise ([upper] on the
    end). *)
Definition range_entry (a b : string) (upper : datetime -> datetime)
  : option clause :=
  if PyStr.truthy a && PyStr.truthy b then
    match fromisoformat a, fromisoformat b with
    | Some lo, Some hi => Some (Field (Range lo (upper hi)))
    | _, _ => None
    end
  else None.

End RangeEntry.

(** The condition under a key holds, or the key is absent. *)
Definition entry_holds (holds : doc -> string -> cond -> bool) (d : doc)
           (k : string) (e : option clause) : bool :=
  match e with
  | Some c => clause_holds holds d (k, c)
  | None => true
  end.

(** ** More of the reference instance *)

Module ReferenceText.

Definition is_upper (c : ascii) : bool :=
  let n := N_of_ascii c in ((65 <=? n) && (n <=? 90))%N.

Definition is_lower (c : ascii) : bool :=
  let n := N_of_ascii c in ((97 <=? n) && (n <=? 122))%N.

Definition to_upper (c : ascii) : ascii :=
  if is_lower c then ascii_of_N (N_of_ascii c - 32) else c.

Definition to_lower (c : ascii) : ascii :=
  if is_upper c then ascii_of_N (N_of_ascii c + 32) else c.

Fixpoint title_from (after_letter : bool) (s : string) : string :=
  match s with
  | EmptyString => EmptyString
  | String c r =>
      String (if after_letter then to_lower c else to_upper c)
             (title_from (is_upper c || is_lower c) r)
  end.

(** [str.title] on text whose letters are the 52 of ASCII. *)
Definition title (s : string) : string := title_from false s.

End ReferenceText.

Module MoreExamples.

(** The credentials record: two allowed addresses and the shared password. *)
Definition credentials : store :=
  [ [ ("_id", VOid "64b7f0c2a1b2c3d4e5f60718");
      ("allowed_emails", VList [VStr "john.doe@x.com"; VStr " Ann@X.com "]);
      ("password", VStr "s3cret") ] ].

(** Three contacts, created on three days. *)
Definition three_contacts : store :=
  [ [ ("_id", VOid "507f1f77bcf86cd799439011");
      ("company_name", VStr "ACME Corp"); ("name", VStr "Jo Doe");
      ("mobile", VStr "9876543210"); ("email", VStr "jo@acme.com");
      ("created_at", VDate (mk_datetime 2024 5 1 12 0 0 0 None)) ];
    [ ("_id", VOid "507f1f77bcf86cd799439012");
      ("company_name", VStr "Bolt Ltd"); ("name", VStr "Al Ray");
      ("mobile", VStr "5550001111"); ("email", VStr "al@bolt.io");
      ("created_at", VDate (mk_datetime 2024 5 3 8 0 0 0 None)) ];
    [ ("_id", VOid "507f1f77bcf86cd799439013");
      ("company_name", VStr "Acme East"); ("name", VStr "Di Lee");
      ("mobile", VStr "5550002222"); ("email", VStr "di@acme.com");
      ("created_at", VDate (mk_datetime 2024 5 2 9 0 0 0 None)) ] ].

(** A contact with a creation time that is a text, a list and a null,
    after a contact with a proper creation time. *)
Definition mixed_contacts : store :=
  [ [ ("_id", VOid "507f1f77bcf86cd799439011");
      ("name", VStr "Jo Doe"); ("mobile2", VNull);
      ("created_at", VDate (mk_datetime 2024 5 1 12 0 0 0 None)) ];
    [ ("_id", VOid "507f1f77bcf86cd799439014");
      ("name", VStr "Old Row"); ("tags", VList [VStr "a"; VInt 1]);
      ("created_at", VStr "yesterday") ] ].

(** A search with a dot in it, and a phone filter. *)
Definition dotted_search : Params.t :=
  Params.mk 1 50 "a.c" "" "000" "" "" "" "" "" "" "".

(** A contact named "abc"; no field of it contains "a.c" or "000". *)
Definition abc_contact : doc :=
  [ ("_id", VOid "507f1f77bcf86cd799439015");
    ("company_name", VStr "Xy Ltd"); ("name", VStr "abc");
    ("mobile", VStr "9876543210"); ("email", VStr "e@xy.io");
    ("created_at", VDate (mk_datetime 2024 5 1 12 0 0 0 None)) ].

(** A search, a phone filter, a company, a disposition and a call range. *)
Definition every_filter : Params.t :=
  Params.mk 1 50 "acme" "corp" "98" "Interested"
            "2024-03-01" "2024-03-31" "" "" "" "".

(** No filter, pages of two. *)
Definition pages_of_two : Params.t :=
  Params.mk 1 2 "" "" "" "" "" "" "" "" "" "".

(** A search only, a phone filter only, and blank filters. *)
Definition search_only : Params.t :=
  Params.mk 1 50 "acme" "" "" "" "" "" "" "" "" "".
Definition blank_filters : Params.t :=
  Params.mk 1 50 "  " " " "   " " " "2024-01-01" "" "" "" "" "2024-01-31".

End MoreExamples.

(** * Properties *)

(** ** Strings *)

Module PyStrFacts.
Import PyStr.

Lemma truthy_false (s : string) : truthy s = false <-> s = "".
Proof. destruct s; simpl; split; congruence. Qed.

Lemma lstrip_blank (s : string) : blank s = true -> lstrip s = "".
Proof.
  induction s as [|c r IH]; simpl; [reflexivity|].
  destruct (isspace c); simpl; [exact IH | discriminate].
Qed.

Lemma strip_blank (s : string) : blank s = true -> strip s = "".
Proof. intros H. unfold strip. rewrite (lstrip_blank _ H). reflexivity. Qed.

Lemma lstrip_nonblank (s : string) :
  blank s = false -> exists c r, lstrip s = String c r /\ isspace c = false.
Proof.
  induction s as [|c r IH]; simpl; [discriminate|].
  destruct (isspace c) eqn:E; simpl; [exact IH|].
  intros _. exists c, r. split; [reflexivity | exact E].
Qed.

Lemma blank_rev_onto (s acc : string) :
  blank (rev_onto s acc) = blank s && blank acc.
Proof.
  revert acc. induction s as [|c r IH]; intros acc; simpl; [reflexivity|].
  rewrite IH. simpl. destruct (isspace c), (blank r); reflexivity.
Qed.

Lemma blank_reverse (s : string) : blank (reverse s) = blank s.
Proof.
  unfold reverse. rewrite blank_rev_onto. simpl.
  destruct (blank s); reflexivity.
Qed.

Lemma blank_lstrip (s : string) : blank (lstrip s) = blank s.
Proof.
  induction s as [|c r IH]; simpl; [reflexivity|].
  destruct (isspace c) eqn:E; simpl; [exact IH|]. rewrite E. reflexivity.
Qed.

Lemma rev_onto_nil_inv (s acc : string) :
  rev_onto s acc = "" -> s = "" /\ acc = "".
Proof.
  revert acc. induction s as [|c r IH]; intros acc H; [split; auto|].
  simpl in H. apply IH in H as [_ H]. discriminate H.
Qed.

Lemma reverse_nil_inv (s : string) : reverse s = "" -> s = "".
Proof. intros H. apply rev_onto_nil_inv in H as [H _]. exact H. Qed.

(** [s.strip()] is falsy exactly when [s] is blank. *)
Lemma truthy_strip (s : string) : truthy (strip s) = negb (blank s).
Proof.
  destruct (blank s) eqn:B; simpl.
  - rewrite (strip_blank _ B). reflexivity.
  - unfold strip, rstrip.
    assert (Hb : blank (lstrip (reverse (lstrip s))) = false).
    { rewrite blank_lstrip, blank_reverse, blank_lstrip. exact B. }
    destruct (reverse (lstrip (reverse (lstrip s)))) eqn:E; [|reflexivity].
    apply reverse_nil_inv in E. rewrite E in Hb. discriminate.
Qed.

End PyStrFacts.

(** ** Values and dictionaries *)

Module DateTimeFacts.
Import DateTime.

Lemma eqb_refl (a : datetime) : eqb a a = true.
Proof.
  unfold eqb. rewrite !Z.eqb_refl. simpl.
  destruct (tzinfo a); [apply Z.eqb_refl | reflexivity].
Qed.

End DateTimeFacts.

Module DictFacts.
Import Dict.


Lemma get_set_ne (k k' : string) (v : value) (d : doc) :
  k <> k' -> get k (set k' v d) = get k d.
Proof.
  intros Hne. apply String.eqb_neq in Hne.
  induction d as [|[k2 v2] r IH]; simpl.
  - rewrite Hne. reflexivity.
  - destruct (String.eqb k' k2) eqn:E; simpl.
    + apply String.eqb_eq in E. subst k2. rewrite Hne. reflexivity.
    + rewrite IH. reflexivity.
Qed.

Lemma get_update_absent (k : string) (u d : doc) :
  get k u = None -> get k (update u d) = get k d.
Proof.
  unfold update. revert d.
  induction u as [|[k' v'] r IH]; intros d H; simpl; [reflexivity|].
  simpl in H. destruct (String.eqb k k') eqn:E; [discriminate|].
  rewrite (IH _ H). apply get_set_ne. apply String.eqb_neq. exact E.
Qed.

End DictFacts.

Lemma value_eqb_refl : forall v : value, value_eqb v v = true.
Proof.
  fix IH 1. intros [ | b | n | s | d | h | l | f]; simpl.
  - reflexivity.
  - destruct b; reflexivity.
  - apply Z.eqb_refl.
  - apply String.eqb_refl.
  - apply DateTimeFacts.eqb_refl.
  - apply String.eqb_refl.
  - induction l as [|x l IHl]; [reflexivity|].
    rewrite (IH x). exact IHl.
  - induction f as [|[k x] f IHf]; [reflexivity|].
    rewrite String.eqb_refl, (IH x). exact IHf.
Qed.

Lemma doc_eqb_refl (d : doc) : doc_eqb d d = true.
Proof. apply (value_eqb_refl (VDict d)). Qed.

(** ** Pagination *)

Lemma pages_of_bounds (total limit : Z) :
  0 < limit ->
  total <= pages_of total limit * limit
  /\ (pages_of total limit - 1) * limit < total.
Proof.
  intros Hl. unfold pages_of.
  pose proof (Z.div_mod (total + limit - 1) limit ltac:(lia)) as E.
  pose proof (Z.mod_pos_bound (total + limit - 1) limit Hl) as B.
  split; nia.
Qed.

(** C2: for [page >= 1], [limit] in [1, 200] and [total >= 0], the skip is
    [(page - 1) * limit] (and is not negative), the page count is the
    ceiling of [total / limit], and no record gives no page. *)
Theorem pagination_skip_and_pages (page limit total : Z) :
  1 <= page -> 1 <= limit <= 200 -> 0 <= total ->
  skip_of page limit = (page - 1) * limit
  /\ 0 <= skip_of page limit
  /\ is_ceiling total limit (pages_of total limit)
  /\ (total = 0 -> pages_of total limit = 0).
Proof.
  intros Hp Hl Ht.
  destruct (pages_of_bounds total limit ltac:(lia)) as [Hup Hlow].
  repeat split.
  - unfold skip_of. nia.
  - exact Hup.
  - intros j Hj. nia.
  - intros ->. unfold pages_of. apply Z.div_small. lia.
Qed.

Lemma pagination_skip_and_pages_witness :
  skip_of 3 50 = (3 - 1) * 50
  /\ 0 <= skip_of 3 50
  /\ is_ceiling 101 50 (pages_of 101 50)
  /\ (101 = 0 -> pages_of 101 50 = 0).
Proof. apply (pagination_skip_and_pages 3 50 101); lia. Defined.

Section HistoryFacts.

Variable fromisoformat : string -> option datetime.
Variable py_str : value -> string.
Variable holds : doc -> string -> cond -> bool.
Variable sort_desc : string -> list doc -> list doc.

Lemma check_paging_ok (p : Params.t) :
  1 <= Params.page p -> 1 <= Params.limit p <= 200 ->
  check_paging p = Ok tt.
Proof.
  intros Hp Hl. unfold check_paging.
  destruct (Z.ltb_spec (Params.page p) 1); [lia|].
  destruct (Z.ltb_spec (Params.limit p) 1); [lia|].
  destruct (Z.ltb_spec 200 (Params.limit p)); [lia|]. reflexivity.
Qed.

(** The page [get_history] returns is the slice at [skip_of] and its page
    count is [pages_of] of the number of matching documents. *)
Lemma get_history_ok (p : Params.t) (q : query) (h : list doc) (st : store) :
  1 <= Params.page p -> 1 <= Params.limit p <= 200 ->
  build_query fromisoformat p = Ok q ->
  stringify_ids py_str
    (find_page holds sort_desc q
       (skip_of (Params.page p) (Params.limit p)) (Params.limit p) st) = Ok h ->
  get_history fromisoformat py_str holds sort_desc p st =
    (Ok (mk_page_result h (Params.page p)
           (pages_of (count_documents holds q st) (Params.limit p))
           (count_documents holds q st)), st).
Proof.
  intros Hp Hl Hq Hh. unfold get_history, bind, lift.
  rewrite (check_paging_ok p Hp Hl), Hq, Hh. reflexivity.
Qed.

(** When the query cannot be built, [get_history] raises what the builder
    raised and returns no page. *)
Lemma get_history_build_fails (p : Params.t) (e : exn) (st : store) :
  1 <= Params.page p -> 1 <= Params.limit p <= 200 ->
  build_query fromisoformat p = Raise e ->
  get_history fromisoformat py_str holds sort_desc p st = (Raise e, st).
Proof.
  intros Hp Hl Hq. unfold get_history, bind, lift.
  rewrite (check_paging_ok p Hp Hl), Hq. reflexivity.
Qed.

End HistoryFacts.

(** ** The query builder *)

Lemma forallb_permutation {A} (f : A -> bool) (l l' : list A) :
  l ≡ₚ l' -> forallb f l = forallb f l'.
Proof.
  induction 1 as [|x l l' _ IH|x y l|l l' l'' _ IH1 _ IH2]; simpl.
  - reflexivity.
  - rewrite IH. reflexivity.
  - destruct (f x), (f y); reflexivity.
  - rewrite IH1. exact IH2.
Qed.

(** Matching is the conjunction of one entry and of the query without it. *)
Lemma matches_delete holds (q : query) (k : string) (c : clause) (d : doc) :
  q !! k = Some c ->
  matches holds q d =
    clause_holds holds d (k, c) && matches holds (delete k q) d.
Proof.
  intros Hk. unfold matches.
  rewrite <- (forallb_permutation _ _ _ (map_to_list_delete q k c Hk)).
  reflexivity.
Qed.

(** Matching is the conjunction of what stands under one key and of the
    query without that key. *)
Lemma matches_entry holds (q : query) (k : string) (d : doc) :
  matches holds q d =
    entry_holds holds d k (q !! k) && matches holds (delete k q) d.
Proof.
  destruct (q !! k) as [c|] eqn:E; simpl.
  - apply matches_delete. exact E.
  - rewrite (delete_id q k E). reflexivity.
Qed.

Lemma matches_no_entry holds (d : doc) : matches holds ∅ d = true.
Proof. unfold matches. rewrite map_to_list_empty. reflexivity. Qed.

Section QueryFacts.

Variable fromisoformat : string -> option datetime.

Abbreviation add_range' := (add_range fromisoformat).
Abbreviation build_query' := (build_query fromisoformat).

(** What a date-range step does, case by case. *)
Lemma add_range_inv key a b upper (q q' : query) :
  add_range' key a b upper q = Ok q' ->
  (PyStr.truthy a && PyStr.truthy b = false /\ q' = q)
  \/ (exists lo hi,
        PyStr.truthy a && PyStr.truthy b = true
        /\ fromisoformat a = Some lo /\ fromisoformat b = Some hi
        /\ q' = <[key := Field (Range lo (upper hi))]> q).
Proof.
  unfold add_range, parse_date.
  destruct (PyStr.truthy a && PyStr.truthy b).
  - destruct (fromisoformat a) as [lo|]; simpl; [|discriminate].
    destruct (fromisoformat b) as [hi|]; simpl; [|discriminate].
    intros [= <-]. right. exists lo, hi. auto.
  - intros [= <-]. left. auto.
Qed.

Lemma add_range_raises key a b upper (q : query) (e : exn) :
  add_range' key a b upper q = Raise e ->
  PyStr.truthy a && PyStr.truthy b = true
  /\ (fromisoformat a = None \/ fromisoformat b = None).
Proof.
  unfold add_range, parse_date.
  destruct (PyStr.truthy a && PyStr.truthy b); [|discriminate].
  destruct (fromisoformat a) as [lo|]; simpl; [|auto].
  destruct (fromisoformat b) as [hi|]; simpl; [discriminate | auto].
Qed.

(** A date-range step leaves every other key alone, and does the same on
    the query without such a key. *)
Lemma add_range_frame key a b upper (q q' : query) (k : string) :
  k <> key ->
  add_range' key a b upper q = Ok q' ->
  q' !! k = q !! k
  /\ add_range' key a b upper (delete k q) = Ok (delete k q').
Proof.
  intros Hne H. destruct (add_range_inv _ _ _ _ _ _ H)
    as [[Hc ->] | (lo & hi & Hc & Ha & Hb & ->)].
  - split; [reflexivity|]. unfold add_range. rewrite Hc. reflexivity.
  - split; [apply lookup_insert_ne; congruence|].
    unfold add_range, parse_date. rewrite Hc, Ha, Hb. simpl.
    rewrite delete_insert_ne by exact Hne. reflexivity.
Qed.

Lemma add_range_key key a b upper (q q' : query) :
  add_range' key a b upper q = Ok q' ->
  q' !! key =
    if PyStr.truthy a && PyStr.truthy b
    then match fromisoformat a, fromisoformat b with
         | Some lo, Some hi => Some (Field (Range lo (upper hi)))
         | _, _ => None
         end
    else q !! key.
Proof.
  intros H. destruct (add_range_inv _ _ _ _ _ _ H)
    as [[Hc ->] | (lo & hi & Hc & Ha & Hb & ->)].
  - rewrite Hc. reflexivity.
  - rewrite Hc, Ha, Hb. apply lookup_insert_eq.
Qed.

(** The three date-range steps at the end of [build_query]. *)
Lemma ranges_frame (p : Params.t) (q0 q : query) (k : string) :
  k <> "call_date" -> k <> "lead_entry_date" -> k <> "created_at" ->
  (let* q1 := add_range' "call_date" (Params.call_start p) (Params.call_end p)
                (fun d => d) q0 in
   let* q2 := add_range' "lead_entry_date" (Params.lead_start p)
                (Params.lead_end p) (fun d => d) q1 in
   add_range' "created_at" (Params.start p) (Params.end_ p) end_of_day q2)
  = Ok q ->
  q !! k = q0 !! k
  /\ (let* q1 := add_range' "call_date" (Params.call_start p)
                   (Params.call_end p) (fun d => d) (delete k q0) in
      let* q2 := add_range' "lead_entry_date" (Params.lead_start p)
                   (Params.lead_end p) (fun d => d) q1 in
      add_range' "created_at" (Params.start p) (Params.end_ p) end_of_day q2)
     = Ok (delete k q).
Proof.
  intros N1 N2 N3 H.
  destruct (add_range' "call_date" _ _ _ q0) as [q1|] eqn:E1;
    simpl in H; [|discriminate].
  destruct (add_range' "lead_entry_date" _ _ _ q1) as [q2|] eqn:E2;
    simpl in H; [|discriminate].
  destruct (add_range_frame _ _ _ _ _ _ k N1 E1) as [L1 D1].
  destruct (add_range_frame _ _ _ _ _ _ k N2 E2) as [L2 D2].
  destruct (add_range_frame _ _ _ _ _ _ k N3 H) as [L3 D3].
  split; [congruence|].
  rewrite D1. simpl. rewrite D2. simpl. exact D3.
Qed.

(** The text filters (search, company, phone, disposition) write no key but
    ["$or"], ["company_name"] and ["disposition"]; the date ranges follow. *)
Lemma build_query_stages (p : Params.t) (q : query) :
  build_query' p = Ok q ->
  exists q0 q1 q2 : query,
    (forall k, k <> "$or" -> k <> "company_name" -> k <> "disposition" ->
               q0 !! k = None)
    /\ add_range' "call_date" (Params.call_start p) (Params.call_end p)
         (fun d => d) q0 = Ok q1
    /\ add_range' "lead_entry_date" (Params.lead_start p) (Params.lead_end p)
         (fun d => d) q1 = Ok q2
    /\ add_range' "created_at" (Params.start p) (Params.end_ p)
         end_of_day q2 = Ok q.
Proof.
  unfold build_query. cbv zeta.
  match goal with
  | |- (let* q1 := add_range' _ _ _ _ ?t in _) = _ -> _ => set (q0 := t)
  end.
  intros H.
  destruct (add_range' "call_date" _ _ _ q0) as [q1|] eqn:E1;
    simpl in H; [|discriminate].
  destruct (add_range' "lead_entry_date" _ _ _ q1) as [q2|] eqn:E2;
    simpl in H; [|discriminate].
  exists q0, q1, q2. repeat split; try assumption.
  intros k N1 N2 N3. subst q0.
  repeat match goal with
         | |- context [if ?b then _ else _] => destruct b
         end;
    rewrite ?lookup_insert_ne by congruence; apply lookup_empty.
Qed.

Lemma truthy_both (a b : string) :
  PyStr.truthy a && PyStr.truthy b = true <-> a <> "" /\ b <> "".
Proof.
  destruct a, b; simpl; split; intros H;
    try discriminate; try (split; discriminate); try reflexivity;
    destruct H as [H1 H2]; congruence.
Qed.

(** A date-range step on a query without its key: the key is there
    afterwards exactly when both ends are non-empty, and then it holds the
    parsed bounds. *)
Lemma add_range_fresh key a b upper (q q' : query) :
  add_range' key a b upper q = Ok q' ->
  q !! key = None ->
  (is_Some (q' !! key) <-> a <> "" /\ b <> "")
  /\ (forall c, q' !! key = Some c ->
        exists lo hi, fromisoformat a = Some lo /\ fromisoformat b = Some hi
                      /\ c = Field (Range lo (upper hi))).
Proof.
  intros H Hnone. destruct (add_range_inv _ _ _ _ _ _ H)
    as [[Hc ->] | (lo & hi & Hc & Ha & Hb & ->)].
  - rewrite Hnone. split.
    + split; [intros [? [=]]|]. intros Hab. apply truthy_both in Hab.
      congruence.
    + intros c [=].
  - rewrite lookup_insert_eq. split.
    + split; [intros _; apply truthy_both; exact Hc | eauto].
    + intros c [= <-]. eauto.
Qed.

(** A range with an empty end is skipped. *)
Lemma add_range_one_sided key a b upper (q : query) :
  a = "" \/ b = "" -> add_range' key a b upper q = Ok q.
Proof.
  intros [-> | ->]; unfold add_range; simpl; [reflexivity|].
  rewrite andb_false_r. reflexivity.
Qed.

Lemma add_range_bad key a b upper (q : query) :
  a <> "" -> b <> "" ->
  fromisoformat a = None \/ fromisoformat b = None ->
  add_range' key a b upper q = Raise (ValueError "Invalid isoformat string").
Proof.
  intros Ha Hb Hbad. unfold add_range, parse_date.
  rewrite (proj2 (truthy_both a b) (conj Ha Hb)).
  destruct (fromisoformat a) as [lo|]; simpl; [|reflexivity].
  destruct Hbad as [[=] | ->]. reflexivity.
Qed.

Lemma add_range_result key a b upper (q : query) :
  (exists q', add_range' key a b upper q = Ok q')
  \/ add_range' key a b upper q = Raise (ValueError "Invalid isoformat string").
Proof.
  unfold add_range, parse_date.
  destruct (PyStr.truthy a && PyStr.truthy b); [|eauto].
  destruct (fromisoformat a) as [lo|]; simpl; [|auto].
  destruct (fromisoformat b) as [hi|]; simpl; eauto.
Qed.

(** A range with both ends given and one of them not a date makes the
    builder raise [ValueError]. *)
Lemma build_query_bad_range (p : Params.t) :
  (Params.call_start p <> "" /\ Params.call_end p <> ""
   /\ (fromisoformat (Params.call_start p) = None
       \/ fromisoformat (Params.call_end p) = None))
  \/ (Params.lead_start p <> "" /\ Params.lead_end p <> ""
      /\ (fromisoformat (Params.lead_start p) = None
          \/ fromisoformat (Params.lead_end p) = None))
  \/ (Params.start p <> "" /\ Params.end_ p <> ""
      /\ (fromisoformat (Params.start p) = None
          \/ fromisoformat (Params.end_ p) = None)) ->
  build_query' p = Raise (ValueError "Invalid isoformat string").
Proof.
  intros Hbad. unfold build_query. cbv zeta.
  match goal with
  | |- (let* q1 := add_range' _ _ _ _ ?t in _) = _ => generalize t
  end.
  intros q0.
  destruct (add_range_result "call_date" (Params.call_start p)
              (Params.call_end p) (fun d => d) q0) as [[q1 E1] | E1];
    rewrite E1; simpl; [|reflexivity].
  destruct (add_range_result "lead_entry_date" (Params.lead_start p)
              (Params.lead_end p) (fun d => d) q1) as [[q2 E2] | E2];
    rewrite E2; simpl; [|reflexivity].
  destruct Hbad as [(A & B & C) | [(A & B & C) | (A & B & C)]].
  - rewrite (add_range_bad _ _ _ _ q0 A B C) in E1. discriminate.
  - rewrite (add_range_bad _ _ _ _ q1 A B C) in E2. discriminate.
  - apply (add_range_bad _ _ _ _ q2 A B C).
Qed.

(** C3: in a predicate that was built, each of the three date ranges is
    present exactly when both of its ends are non-empty; a range with an
    empty end changes nothing (the request builds what it builds with that
    range left out, error or not); and the upper bound of the creation
    range is the end date at 23:59:59.999999, that is millisecond 999 of
    the last second of the day. *)
Theorem date_ranges_need_both_ends (p : Params.t) :
  (forall q : query, build_query' p = Ok q ->
     (is_Some (q !! "call_date")
      <-> Params.call_start p <> "" /\ Params.call_end p <> "")
     /\ (is_Some (q !! "lead_entry_date")
         <-> Params.lead_start p <> "" /\ Params.lead_end p <> "")
     /\ (is_Some (q !! "created_at")
         <-> Params.start p <> "" /\ Params.end_ p <> "")
     /\ (forall c, q !! "created_at" = Some c ->
           exists lo e hi,
             fromisoformat (Params.start p) = Some lo
             /\ fromisoformat (Params.end_ p) = Some e
             /\ hi = mk_datetime (year e) (month e) (day e)
                                 23 59 59 999999 None
             /\ DateTime.millisecond hi = 999
             /\ c = Field (Range lo hi)))
  /\ (Params.call_start p = "" \/ Params.call_end p = "" ->
      build_query' p =
      build_query'
        (Params.mk (Params.page p) (Params.limit p) (Params.search p)
           (Params.company p) (Params.phone p) (Params.disposition p)
           "" "" (Params.lead_start p) (Params.lead_end p)
           (Params.start p) (Params.end_ p)))
  /\ (Params.lead_start p = "" \/ Params.lead_end p = "" ->
      build_query' p =
      build_query'
        (Params.mk (Params.page p) (Params.limit p) (Params.search p)
           (Params.company p) (Params.phone p) (Params.disposition p)
           (Params.call_start p) (Params.call_end p) "" ""
           (Params.start p) (Params.end_ p)))
  /\ (Params.start p = "" \/ Params.end_ p = "" ->
      build_query' p =
      build_query'
        (Params.mk (Params.page p) (Params.limit p) (Params.search p)
           (Params.company p) (Params.phone p) (Params.disposition p)
           (Params.call_start p) (Params.call_end p)
           (Params.lead_start p) (Params.lead_end p) "" "")).
Proof.
  split; [|repeat split].
  - intros q Hq.
    destruct (build_query_stages p q Hq) as (q0 & q1 & q2 & H0 & E1 & E2 & E3).
    destruct (add_range_fresh _ _ _ _ _ _ E1 (H0 "call_date"
                ltac:(done) ltac:(done) ltac:(done))) as [I1 _].
    destruct (add_range_frame "call_date" _ _ _ _ _ "lead_entry_date"
                ltac:(done) E1) as [L1 _].
    destruct (add_range_frame "call_date" _ _ _ _ _ "created_at"
                ltac:(done) E1) as [L1' _].
    destruct (add_range_frame "lead_entry_date" _ _ _ _ _ "call_date"
                ltac:(done) E2) as [L2 _].
    destruct (add_range_frame "lead_entry_date" _ _ _ _ _ "created_at"
                ltac:(done) E2) as [L2' _].
    destruct (add_range_frame "created_at" _ _ _ _ _ "call_date"
                ltac:(done) E3) as [L3 _].
    destruct (add_range_frame "created_at" _ _ _ _ _ "lead_entry_date"
                ltac:(done) E3) as [L3' _].
    assert (N1 : q1 !! "lead_entry_date" = None).
    { rewrite L1. apply H0; done. }
    assert (N2 : q2 !! "created_at" = None).
    { rewrite L2', L1'. apply H0; done. }
    destruct (add_range_fresh _ _ _ _ _ _ E2 N1) as [I2 _].
    destruct (add_range_fresh _ _ _ _ _ _ E3 N2) as [I3 B3].
    split; [|split; [|split]].
    + rewrite L3, L2. exact I1.
    + rewrite L3'. exact I2.
    + exact I3.
    + intros c Hc. destruct (B3 c Hc) as (lo & e & Hlo & He & ->).
      exists lo, e, (end_of_day e). repeat split; assumption.
  - intros H. unfold build_query.
    cbn [Params.search Params.phone Params.company Params.disposition
         Params.call_start Params.call_end Params.lead_start Params.lead_end
         Params.start Params.end_].
    rewrite (add_range_one_sided _ _ _ _ _ H). reflexivity.
  - intros H. unfold build_query.
    cbn [Params.search Params.phone Params.company Params.disposition
         Params.call_start Params.call_end Params.lead_start Params.lead_end
         Params.start Params.end_]. cbv zeta.
    match goal with
    | |- rbind ?r _ = _ => destruct r; simpl
    end; [|reflexivity].
    rewrite (add_range_one_sided _ _ _ _ _ H). reflexivity.
  - intros H. unfold build_query.
    cbn [Params.search Params.phone Params.company Params.disposition
         Params.call_start Params.call_end Params.lead_start Params.lead_end
         Params.start Params.end_]. cbv zeta.
    match goal with
    | |- rbind ?r _ = _ => destruct r; simpl
    end; [|reflexivity].
    match goal with
    | |- rbind ?r _ = _ => destruct r; simpl
    end; [|reflexivity].
    rewrite (add_range_one_sided _ _ _ _ _ H). reflexivity.
Qed.

(** The text filters, entry by entry, and the date ranges that follow. *)
Lemma build_query_text_stage (p : Params.t) (q : query) :
  build_query' p = Ok q ->
  exists q0 q1 q2 : query,
    q0 !! "$or" =
      (if PyStr.blank (Params.search p) && PyStr.blank (Params.phone p)
       then None
       else Some (Or ((if PyStr.blank (Params.search p) then []
                       else [ ("name", Regex (Params.search p) (Some "i"));
                              ("company_name",
                               Regex (Params.search p) (Some "i"));
                              ("mobile", Regex (Params.search p) None);
                              ("email", Regex (Params.search p) (Some "i")) ])
                      ++ (if PyStr.blank (Params.phone p) then []
                          else [ ("mobile", Regex (Params.phone p) None);
                                 ("mobile2", Regex (Params.phone p) None) ]))))
    /\ q0 !! "company_name" =
         (if PyStr.blank (Params.company p) then None
          else Some (Field (Regex (Params.company p) (Some "i"))))
    /\ q0 !! "disposition" =
         (if PyStr.blank (Params.disposition p) then None
          else Some (Field (Equals (Params.disposition p))))
    /\ (forall k, k <> "$or" -> k <> "company_name" -> k <> "disposition" ->
                  q0 !! k = None)
    /\ add_range' "call_date" (Params.call_start p) (Params.call_end p)
         (fun d => d) q0 = Ok q1
    /\ add_range' "lead_entry_date" (Params.lead_start p) (Params.lead_end p)
         (fun d => d) q1 = Ok q2
    /\ add_range' "created_at" (Params.start p) (Params.end_ p)
         end_of_day q2 = Ok q.
Proof.
  unfold build_query. cbv zeta.
  match goal with
  | |- (let* q1 := add_range' _ _ _ _ ?t in _) = _ -> _ => set (q0 := t)
  end.
  intros H.
  destruct (add_range' "call_date" _ _ _ q0) as [q1|] eqn:E1;
    simpl in H; [|discriminate].
  destruct (add_range' "lead_entry_date" _ _ _ q1) as [q2|] eqn:E2;
    simpl in H; [|discriminate].
  exists q0, q1, q2.
  assert (Htext :
    q0 !! "$or" =
      (if PyStr.blank (Params.search p) && PyStr.blank (Params.phone p)
       then None
       else Some (Or ((if PyStr.blank (Params.search p) then []
                       else [ ("name", Regex (Params.search p) (Some "i"));
                              ("company_name",
                               Regex (Params.search p) (Some "i"));
                              ("mobile", Regex (Params.search p) None);
                              ("email", Regex (Params.search p) (Some "i")) ])
                      ++ (if PyStr.blank (Params.phone p) then []
                          else [ ("mobile", Regex (Params.phone p) None);
                                 ("mobile2", Regex (Params.phone p) None) ]))))
    /\ q0 !! "company_name" =
         (if PyStr.blank (Params.company p) then None
          else Some (Field (Regex (Params.company p) (Some "i"))))
    /\ q0 !! "disposition" =
         (if PyStr.blank (Params.disposition p) then None
          else Some (Field (Equals (Params.disposition p))))
    /\ (forall k, k <> "$or" -> k <> "company_name" -> k <> "disposition" ->
                  q0 !! k = None)).
  { subst q0. clear. rewrite !PyStrFacts.truthy_strip.
    destruct (PyStr.blank (Params.search p));
      destruct (PyStr.blank (Params.company p));
      destruct (PyStr.blank (Params.phone p));
      destruct (PyStr.blank (Params.disposition p));
      cbn [negb andb]; unfold get_or;
      repeat (rewrite ?lookup_insert_ne by done;
              rewrite ?lookup_insert_eq; rewrite ?lookup_empty);
      (split; [reflexivity|]); (split; [reflexivity|]);
      (split; [reflexivity|]);
      intros k N1 N2 N3;
      rewrite ?lookup_insert_ne by congruence; apply lookup_empty. }
  destruct Htext as (T1 & T2 & T3 & T4).
  repeat split; assumption.
Qed.

(** C1, as the code runs: when the free-text search and the phone filter
    are both non-blank, the predicate has one ["$or"] group: the four
    search alternatives, each a [$regex] with the search text as its
    pattern (ignoring case on name, company and email, not on the mobile
    number), followed by the two phone alternatives, a [$regex] with the
    phone text on both numbers.  Beside it the predicate holds the
    company, the disposition and the date ranges that are supplied, and
    nothing else; a document matches when it satisfies one alternative of
    the group and each of the other entries. *)
Theorem search_and_phone_share_one_or_group (p : Params.t) (q : query) :
  PyStr.blank (Params.search p) = false ->
  PyStr.blank (Params.phone p) = false ->
  build_query' p = Ok q ->
  let group :=
    [ ("name", Regex (Params.search p) (Some "i"));
      ("company_name", Regex (Params.search p) (Some "i"));
      ("mobile", Regex (Params.search p) None);
      ("email", Regex (Params.search p) (Some "i"));
      ("mobile", Regex (Params.phone p) None);
      ("mobile2", Regex (Params.phone p) None) ] in
  let company :=
    if PyStr.blank (Params.company p) then None
    else Some (Field (Regex (Params.company p) (Some "i"))) in
  let disposition :=
    if PyStr.blank (Params.disposition p) then None
    else Some (Field (Equals (Params.disposition p))) in
  let call :=
    range_entry fromisoformat (Params.call_start p) (Params.call_end p)
      (fun d => d) in
  let lead :=
    range_entry fromisoformat (Params.lead_start p) (Params.lead_end p)
      (fun d => d) in
  let created :=
    range_entry fromisoformat (Params.start p) (Params.end_ p) end_of_day in
  q !! "$or" = Some (Or group)
  /\ q !! "company_name" = company
  /\ q !! "disposition" = disposition
  /\ q !! "call_date" = call
  /\ q !! "lead_entry_date" = lead
  /\ q !! "created_at" = created
  /\ (forall k,
        ~ In k ["$or"; "company_name"; "disposition"; "call_date";
                "lead_entry_date"; "created_at"] ->
        q !! k = None)
  /\ forall holds d,
       matches holds q d =
         existsb (alt_holds holds d) group
         && entry_holds holds d "company_name" company
         && entry_holds holds d "disposition" disposition
         && entry_holds holds d "call_date" call
         && entry_holds holds d "lead_entry_date" lead
         && entry_holds holds d "created_at" created.
Proof.
  intros Hs Hp Hq group company disposition call lead created.
  destruct (build_query_text_stage p q Hq)
    as (q0 & q1 & q2 & T1 & T2 & T3 & T4 & E1 & E2 & E3).
  rewrite Hs, Hp in T1. cbn [andb] in T1.
  destruct (add_range_frame "call_date" _ _ _ _ _ "$or" ltac:(done) E1)
    as [A1 _].
  destruct (add_range_frame "call_date" _ _ _ _ _ "company_name"
              ltac:(done) E1) as [A2 _].
  destruct (add_range_frame "call_date" _ _ _ _ _ "disposition"
              ltac:(done) E1) as [A3 _].
  destruct (add_range_frame "call_date" _ _ _ _ _ "lead_entry_date"
              ltac:(done) E1) as [A4 _].
  destruct (add_range_frame "call_date" _ _ _ _ _ "created_at"
              ltac:(done) E1) as [A5 _].
  destruct (add_range_frame "lead_entry_date" _ _ _ _ _ "$or"
              ltac:(done) E2) as [B1 _].
  destruct (add_range_frame "lead_entry_date" _ _ _ _ _ "company_name"
              ltac:(done) E2) as [B2 _].
  destruct (add_range_frame "lead_entry_date" _ _ _ _ _ "disposition"
              ltac:(done) E2) as [B3 _].
  destruct (add_range_frame "lead_entry_date" _ _ _ _ _ "call_date"
              ltac:(done) E2) as [B4 _].
  destruct (add_range_frame "lead_entry_date" _ _ _ _ _ "created_at"
              ltac:(done) E2) as [B5 _].
  destruct (add_range_frame "created_at" _ _ _ _ _ "$or"
              ltac:(done) E3) as [C1 _].
  destruct (add_range_frame "created_at" _ _ _ _ _ "company_name"
              ltac:(done) E3) as [C2 _].
  destruct (add_range_frame "created_at" _ _ _ _ _ "disposition"
              ltac:(done) E3) as [C3 _].
  destruct (add_range_frame "created_at" _ _ _ _ _ "call_date"
              ltac:(done) E3) as [C4 _].
  destruct (add_range_frame "created_at" _ _ _ _ _ "lead_entry_date"
              ltac:(done) E3) as [C5 _].
  pose proof (add_range_key _ _ _ _ _ _ E1) as K1.
  pose proof (add_range_key _ _ _ _ _ _ E2) as K2.
  pose proof (add_range_key _ _ _ _ _ _ E3) as K3.
  rewrite (T4 "call_date") in K1 by done.
  rewrite A4, (T4 "lead_entry_date") in K2 by done.
  rewrite B5, A5, (T4 "created_at") in K3 by done.
  assert (Hor : q !! "$or" = Some (Or group))
    by (rewrite C1, B1, A1, T1; reflexivity).
  assert (Hcompany : q !! "company_name" = company)
    by (rewrite C2, B2, A2; exact T2).
  assert (Hdisposition : q !! "disposition" = disposition)
    by (rewrite C3, B3, A3; exact T3).
  assert (Hcall : q !! "call_date" = call) by (rewrite C4, B4; exact K1).
  assert (Hlead : q !! "lead_entry_date" = lead) by (rewrite C5; exact K2).
  assert (Hcreated : q !! "created_at" = created) by exact K3.
  assert (Hdom : forall k,
             ~ In k ["$or"; "company_name"; "disposition"; "call_date";
                     "lead_entry_date"; "created_at"] ->
             q !! k = None).
  { intros k Hk. simpl in Hk.
    destruct (add_range_frame "created_at" _ _ _ _ _ k
                ltac:(intros ->; tauto) E3) as [-> _].
    destruct (add_range_frame "lead_entry_date" _ _ _ _ _ k
                ltac:(intros ->; tauto) E2) as [-> _].
    destruct (add_range_frame "call_date" _ _ _ _ _ k
                ltac:(intros ->; tauto) E1) as [-> _].
    apply T4; intros ->; tauto. }
  repeat (split; [assumption|]).
  intros holds d.
  rewrite (matches_entry holds q "$or"), Hor.
  rewrite (matches_entry holds _ "company_name"),
    lookup_delete_ne, Hcompany by done.
  rewrite (matches_entry holds _ "disposition"),
    !lookup_delete_ne, Hdisposition by done.
  rewrite (matches_entry holds _ "call_date"),
    !lookup_delete_ne, Hcall by done.
  rewrite (matches_entry holds _ "lead_entry_date"),
    !lookup_delete_ne, Hlead by done.
  rewrite (matches_entry holds _ "created_at"),
    !lookup_delete_ne, Hcreated by done.
  match goal with
  | |- context [matches holds ?m d] =>
      assert (Hnone : m = ∅);
      [ apply map_eq; intros k; rewrite lookup_empty;
        repeat (rewrite lookup_delete; case_decide; [reflexivity|]);
        apply Hdom; simpl; intuition congruence
      | rewrite Hnone, matches_no_entry ]
  end.
  simpl entry_holds at 1. unfold clause_holds at 1. simpl snd.
  rewrite andb_true_r, !andb_assoc. reflexivity.
Qed.

End QueryFacts.

Lemma search_and_phone_share_one_or_group_witness :
  exists q : query,
    build_query Reference.fromisoformat MoreExamples.every_filter = Ok q
    /\ q !! "$or" =
         Some (Or [ ("name", Regex "acme" (Some "i"));
                    ("company_name", Regex "acme" (Some "i"));
                    ("mobile", Regex "acme" None);
                    ("email", Regex "acme" (Some "i"));
                    ("mobile", Regex "98" None);
                    ("mobile2", Regex "98" None) ])
    /\ q !! "company_name" = Some (Field (Regex "corp" (Some "i")))
    /\ q !! "disposition" = Some (Field (Equals "Interested"))
    /\ q !! "call_date" =
         Some (Field (Range (mk_datetime 2024 3 1 0 0 0 0 None)
                            (mk_datetime 2024 3 31 0 0 0 0 None)))
    /\ q !! "lead_entry_date" = None
    /\ q !! "created_at" = None.
Proof.
  destruct (build_query Reference.fromisoformat MoreExamples.every_filter)
    as [q|e] eqn:E; [|vm_compute in E; discriminate E].
  exists q. split; [reflexivity|].
  destruct (search_and_phone_share_one_or_group Reference.fromisoformat
              MoreExamples.every_filter q eq_refl eq_refl E)
    as (H1 & H2 & H3 & H4 & H5 & H6 & _).
  repeat split; assumption.
Defined.

(** A search text with a dot in it: the contact named "abc" matches the
    predicate the code builds for the search "a.c", though no field of it
    contains "a.c", nor the phone text. *)
Lemma dotted_search_is_no_substring_test :
  exists q : query,
    build_query Reference.fromisoformat MoreExamples.dotted_search = Ok q
    /\ matches RegexReference.holds q MoreExamples.abc_contact = true
    /\ SubstringReading.group_holds "a.c" "000" MoreExamples.abc_contact
       = false.
Proof.
  destruct (build_query Reference.fromisoformat MoreExamples.dotted_search)
    as [q|e] eqn:E; [|vm_compute in E; discriminate E].
  exists q. split; [reflexivity|].
  vm_compute in E. injection E as <-.
  split; vm_compute; reflexivity.
Qed.


Lemma date_ranges_need_both_ends_witness :
  exists q : query,
    build_query Reference.fromisoformat Examples.some_ranges = Ok q
    /\ is_Some (q !! "call_date")
    /\ q !! "lead_entry_date" = None
    /\ q !! "created_at" =
         Some (Field (Range (mk_datetime 2024 1 1 0 0 0 0 None)
                            (mk_datetime 2024 1 31 23 59 59 999999 None))).
Proof.
  destruct (build_query Reference.fromisoformat Examples.some_ranges)
    as [q|e] eqn:E; [|vm_compute in E; discriminate E].
  exists q. split; [reflexivity|].
  destruct (date_ranges_need_both_ends Reference.fromisoformat
              Examples.some_ranges) as [H _].
  destruct (H q E) as (Hcall & Hlead & Hcreated & Hbound).
  split; [apply Hcall; split; discriminate|].
  split.
  - destruct (q !! "lead_entry_date") eqn:L; [|reflexivity].
    destruct (proj1 Hlead (mk_is_Some _ _ eq_refl)) as [_ Habs].
    exfalso. apply Habs. reflexivity.
  - destruct (proj2 Hcreated) as [c Hc]; [split; discriminate|].
    destruct (Hbound c Hc) as (lo & e & hi & Hlo & He & -> & _ & ->).
    vm_compute in Hlo, He.
    injection Hlo as <-. injection He as <-. exact Hc.
Defined.

(** ** Errors of [get_history] *)

Section HistoryErrors.

Variable fromisoformat : string -> option datetime.
Variable py_str : value -> string.
Variable holds : doc -> string -> cond -> bool.
Variable sort_desc : string -> list doc -> list doc.

(** C10: when both ends of a date range are non-empty and one of them is
    not a date that [fromisoformat] reads, [get_history] raises: it returns
    no page, and the builder does not skip the filter, it raises
    [ValueError]. *)
Theorem malformed_range_raises (p : Params.t) (st : store) :
  (Params.call_start p <> "" /\ Params.call_end p <> ""
   /\ (fromisoformat (Params.call_start p) = None
       \/ fromisoformat (Params.call_end p) = None))
  \/ (Params.lead_start p <> "" /\ Params.lead_end p <> ""
      /\ (fromisoformat (Params.lead_start p) = None
          \/ fromisoformat (Params.lead_end p) = None))
  \/ (Params.start p <> "" /\ Params.end_ p <> ""
      /\ (fromisoformat (Params.start p) = None
          \/ fromisoformat (Params.end_ p) = None)) ->
  build_query fromisoformat p = Raise (ValueError "Invalid isoformat string")
  /\ exists e : exn,
       get_history fromisoformat py_str holds sort_desc p st = (Raise e, st)
       /\ (1 <= Params.page p -> 1 <= Params.limit p <= 200 ->
           e = ValueError "Invalid isoformat string").
Proof.
  intros Hbad.
  pose proof (build_query_bad_range fromisoformat p Hbad) as Hq.
  split; [exact Hq|].
  unfold get_history, bind, lift.
  destruct (check_paging p) as [[]|e] eqn:C.
  - rewrite Hq. exists (ValueError "Invalid isoformat string"). auto.
  - exists e. split; [reflexivity|]. intros Hp Hl.
    rewrite (check_paging_ok p Hp Hl) in C. discriminate C.
Qed.

End HistoryErrors.

Lemma malformed_range_raises_witness :
  get_history Reference.fromisoformat Reference.py_str Reference.holds
    Reference.sort_desc Examples.bad_call_end []
  = (Raise (ValueError "Invalid isoformat string"), []).
Proof.
  destruct (malformed_range_raises Reference.fromisoformat Reference.py_str
              Reference.holds Reference.sort_desc Examples.bad_call_end [])
    as [_ (e & He & Hv)].
  - left. repeat split; [discriminate | discriminate | right; reflexivity].
  - rewrite He. rewrite Hv; [reflexivity | simpl; lia | simpl; lia].
Defined.

(** ** The collection *)

Module CollectionFacts.
Import Collection.

Lemma remove_first_absent (oid : string) (st : store) :
  existsb (has_id oid) st = false -> remove_first oid st = (0, st).
Proof.
  induction st as [|d r IH]; simpl; [reflexivity|].
  destruct (has_id oid d); simpl; [discriminate|].
  intros H. rewrite (IH H). reflexivity.
Qed.

Lemma remove_first_count (oid : string) (st : store) :
  fst (remove_first oid st) = if existsb (has_id oid) st then 1 else 0.
Proof.
  induction st as [|d r IH]; simpl; [reflexivity|].
  destruct (has_id oid d); simpl; [reflexivity|].
  destruct (remove_first oid r) as [n r']. simpl in *. exact IH.
Qed.

(** What [delete_one] leaves was there before. *)
Lemma remove_first_subset (oid : string) (st : store) (d : doc) :
  In d (snd (remove_first oid st)) -> In d st.
Proof.
  induction st as [|x r IH]; simpl; [tauto|].
  destruct (has_id oid x); simpl; [tauto|].
  destruct (remove_first oid r) as [n r']. simpl in *.
  intros [H | H]; [left; exact H | right; exact (IH H)].
Qed.

Lemma set_first_absent (oid : string) (data : doc) (st : store) :
  existsb (has_id oid) st = false -> set_first oid data st = Ok (0, st).
Proof.
  induction st as [|d r IH]; simpl; [reflexivity|].
  destruct (has_id oid d); simpl; [discriminate|].
  intros H. rewrite (IH H). reflexivity.
Qed.

Lemma changes_id_same (d : doc) : changes_id d d = false.
Proof.
  unfold changes_id. destruct (Dict.get "_id" d); [|reflexivity].
  rewrite value_eqb_refl. reflexivity.
Qed.

(** A [$set] that leaves the matched document as it was modifies nothing. *)
Lemma set_first_unchanged (oid : string) (data : doc) (st : store) (d : doc) :
  find (has_id oid) st = Some d -> Dict.update data d = d ->
  set_first oid data st = Ok (0, st).
Proof.
  induction st as [|x r IH]; simpl; [discriminate|].
  destruct (has_id oid x).
  - intros [= ->] Hsame. rewrite Hsame, changes_id_same, doc_eqb_refl.
    reflexivity.
  - intros Hf Hsame. rewrite (IH Hf Hsame). reflexivity.
Qed.

End CollectionFacts.

(** ** [delete_contact] *)

Section DeleteFacts.

Variable exn_str : exn -> string.

(** Deleting a contact that is there answers [deleted_count] 1. *)
Lemma delete_existing_reports_one (contact_id : string) (st : store) :
  ObjectId.is_valid contact_id = true ->
  existsb (Collection.has_id (PyStr.lower contact_id)) st = true ->
  fst (delete_contact exn_str contact_id st) =
    Ok [ ("status", VStr "success");
         ("message", VStr "Contact deleted successfully");
         ("deleted_count", VInt 1) ].
Proof.
  intros Hv Hin.
  unfold delete_contact, try_except, bind, lift, ObjectId.make,
    Collection.delete_one.
  rewrite Hv.
  pose proof (CollectionFacts.remove_first_count (PyStr.lower contact_id) st)
    as Hc.
  rewrite Hin in Hc.
  destruct (Collection.remove_first (PyStr.lower contact_id) st) as [n st'].
  simpl in Hc. subst n. reflexivity.
Qed.

(** C4, as the code runs: for a well-formed identifier that matches no
    record, [delete_contact] raises its 404 inside the [try] block, the
    [except Exception] clause catches it, and the answer is a 500. *)
Theorem delete_missing_record_answers_500 (contact_id : string) (st : store) :
  ObjectId.is_valid contact_id = true ->
  existsb (Collection.has_id (PyStr.lower contact_id)) st = false ->
  delete_contact exn_str contact_id st =
    (Raise (HTTPException 500
              (String.append "Error deleting contact: "
                 (exn_str (HTTPException 404 "Contact not found")))), st).
Proof.
  intros Hv Hout.
  unfold delete_contact, try_except, bind, lift, ObjectId.make,
    Collection.delete_one.
  rewrite Hv, (CollectionFacts.remove_first_absent _ _ Hout). reflexivity.
Qed.

End DeleteFacts.

Lemma delete_missing_record_answers_500_witness :
  delete_contact Reference.exn_str Examples.another_id Examples.one_contact =
    (Raise (HTTPException 500
              "Error deleting contact: 404: Contact not found"),
     Examples.one_contact).
Proof.
  apply (delete_missing_record_answers_500 Reference.exn_str
           Examples.another_id Examples.one_contact); reflexivity.
Defined.

(** ** [submit_contact] *)

Section SubmitFacts.

Variable fromisoformat : string -> option datetime.

Lemma strip_or_none_null (x : option string) :
  x = None \/ x = Some "" -> strip_or_none x = VNull.
Proof. intros [-> | ->]; reflexivity. Qed.

Lemma strip_or_none_whitespace (s : string) :
  s <> "" -> PyStr.blank s = true -> strip_or_none (Some s) = VStr "".
Proof.
  intros Hne Hb. unfold strip_or_none.
  destruct s as [|c r]; [congruence|]. simpl PyStr.truthy. cbv iota.
  rewrite (PyStrFacts.strip_blank _ Hb). reflexivity.
Qed.

Lemma strip_lower_or_none_whitespace (s : string) :
  s <> "" -> PyStr.blank s = true -> strip_lower_or_none (Some s) = VStr "".
Proof.
  intros Hne Hb. unfold strip_lower_or_none.
  destruct s as [|c r]; [congruence|]. simpl PyStr.truthy. cbv iota.
  rewrite (PyStrFacts.strip_blank _ Hb). reflexivity.
Qed.

(** The handler's outcome, by what the two dates parse to. *)
Lemma submit_contact_cases (utcnow : datetime) (oid : string) (f : Form.t)
      (st : store) :
  submit_contact fromisoformat utcnow oid f st =
    match fromisoformat (Form.call_date f),
          fromisoformat (Form.lead_entry_date f) with
    | Some call, Some lead =>
        if existsb (Collection.has_id oid) st
        then (Raise (HTTPException 500 "Server error while saving contact"), st)
        else (Ok [ ("status", VStr "success");
                   ("message", VStr "Contact saved successfully") ],
              st ++ [("_id", VOid oid) :: contact_of f call lead utcnow])
    | _, _ => (Raise (HTTPException 500 "Server error while saving contact"), st)
    end.
Proof.
  unfold submit_contact, try_except, bind, lift, parse_date,
    Collection.insert_one, raise, ret.
  destruct (fromisoformat (Form.call_date f)) as [call|]; [|reflexivity].
  destruct (fromisoformat (Form.lead_entry_date f)) as [lead|]; [|reflexivity].
  destruct (existsb (Collection.has_id oid) st); reflexivity.
Qed.

(** C5, as the code runs: a [call_date] or [lead_entry_date] that does not
    parse makes create answer the handler's 500 and insert nothing; the
    required fields are not checked for blanks: when both dates parse,
    create succeeds and stores the trimmed fields, whatever they hold. *)
Theorem submit_bad_date_is_server_error
        (utcnow : datetime) (oid : string) (f : Form.t) (st : store) :
  (fromisoformat (Form.call_date f) = None
   \/ fromisoformat (Form.lead_entry_date f) = None ->
   submit_contact fromisoformat utcnow oid f st =
     (Raise (HTTPException 500 "Server error while saving contact"), st))
  /\ (forall call lead : datetime,
        fromisoformat (Form.call_date f) = Some call ->
        fromisoformat (Form.lead_entry_date f) = Some lead ->
        existsb (Collection.has_id oid) st = false ->
        submit_contact fromisoformat utcnow oid f st =
          (Ok [ ("status", VStr "success");
                ("message", VStr "Contact saved successfully") ],
           st ++ [("_id", VOid oid) :: contact_of f call lead utcnow])).
Proof.
  rewrite submit_contact_cases. split.
  - intros [-> | ->]; [reflexivity|].
    destruct (fromisoformat (Form.call_date f)); reflexivity.
  - intros call lead -> -> ->. reflexivity.
Qed.

(** C8, as the code runs: an optional field that is white space only is
    truthy, so it is stripped and stored as the empty string, not as
    null. *)
Theorem whitespace_optional_field_stored_empty
        (f : Form.t) (call lead utcnow : datetime) (s : string) :
  s <> "" -> PyStr.blank s = true ->
  let contact := contact_of f call lead utcnow in
  (Form.mobile2 f = Some s -> Dict.get "mobile2" contact = Some (VStr ""))
  /\ (Form.landline f = Some s -> Dict.get "landline" contact = Some (VStr ""))
  /\ (Form.email2 f = Some s -> Dict.get "email2" contact = Some (VStr ""))
  /\ (Form.linkedin f = Some s -> Dict.get "linkedin" contact = Some (VStr ""))
  /\ (Form.partner_name f = Some s ->
      Dict.get "partner_name" contact = Some (VStr ""))
  /\ (Form.comments f = Some s -> Dict.get "comments" contact = Some (VStr "")).
Proof.
  intros Hne Hb contact. subst contact. unfold contact_of. simpl Dict.get.
  repeat split; intros ->;
    rewrite ?(strip_or_none_whitespace s Hne Hb),
            ?(strip_lower_or_none_whitespace s Hne Hb); reflexivity.
Qed.

(** An optional field that is absent or empty is stored as null. *)
Lemma absent_optional_field_stored_null
      (f : Form.t) (call lead utcnow : datetime) :
  let contact := contact_of f call lead utcnow in
  (Form.mobile2 f = None \/ Form.mobile2 f = Some "" ->
   Dict.get "mobile2" contact = Some VNull)
  /\ (Form.landline f = None \/ Form.landline f = Some "" ->
      Dict.get "landline" contact = Some VNull)
  /\ (Form.email2 f = None \/ Form.email2 f = Some "" ->
      Dict.get "email2" contact = Some VNull)
  /\ (Form.linkedin f = None \/ Form.linkedin f = Some "" ->
      Dict.get "linkedin" contact = Some VNull)
  /\ (Form.partner_name f = None \/ Form.partner_name f = Some "" ->
      Dict.get "partner_name" contact = Some VNull)
  /\ (Form.comments f = None \/ Form.comments f = Some "" ->
      Dict.get "comments" contact = Some VNull).
Proof.
  intros contact. subst contact. unfold contact_of. simpl Dict.get.
  repeat split; intros [-> | ->]; reflexivity.
Qed.

End SubmitFacts.

Lemma submit_bad_date_is_server_error_witness :
  submit_contact Reference.fromisoformat Examples.later Examples.another_id
    Examples.bad_date_form Examples.one_contact
  = (Raise (HTTPException 500 "Server error while saving contact"),
     Examples.one_contact)
  /\ submit_contact Reference.fromisoformat Examples.later Examples.another_id
       Examples.acme_form Examples.one_contact
     = (Ok [ ("status", VStr "success");
             ("message", VStr "Contact saved successfully") ],
        Examples.one_contact
        ++ [("_id", VOid Examples.another_id)
            :: contact_of Examples.acme_form
                 (mk_datetime 2024 1 15 0 0 0 0 None)
                 (mk_datetime 2024 1 10 0 0 0 0 None) Examples.later]).
Proof.
  split.
  - apply (proj1 (submit_bad_date_is_server_error Reference.fromisoformat
                    Examples.later Examples.another_id Examples.bad_date_form
                    Examples.one_contact)).
    left. reflexivity.
  - apply (proj2 (submit_bad_date_is_server_error Reference.fromisoformat
                    Examples.later Examples.another_id Examples.acme_form
                    Examples.one_contact)); reflexivity.
Defined.

(** A form whose name is white space only is saved, with the empty name;
    a form whose call date is not a date is answered 500, not 400 or 422. *)
Lemma submit_blank_name_is_saved :
  submit_contact Reference.fromisoformat Examples.noon Examples.an_id
    Examples.blank_name_form []
  = (Ok [ ("status", VStr "success");
          ("message", VStr "Contact saved successfully") ],
     [ ("_id", VOid Examples.an_id)
       :: contact_of Examples.blank_name_form
            (mk_datetime 2024 1 15 0 0 0 0 None)
            (mk_datetime 2024 1 10 0 0 0 0 None) Examples.noon ])
  /\ Dict.get "name"
       (contact_of Examples.blank_name_form
          (mk_datetime 2024 1 15 0 0 0 0 None)
          (mk_datetime 2024 1 10 0 0 0 0 None) Examples.noon)
     = Some (VStr "")
  /\ submit_contact Reference.fromisoformat Examples.noon Examples.an_id
       Examples.bad_date_form []
     = (Raise (HTTPException 500 "Server error while saving contact"), []).
Proof. repeat split; vm_compute; reflexivity. Qed.

Lemma whitespace_optional_field_stored_empty_witness :
  Dict.get "mobile2"
    (contact_of Examples.blank_mobile2_form
       (mk_datetime 2024 1 15 0 0 0 0 None)
       (mk_datetime 2024 1 10 0 0 0 0 None) Examples.noon)
  = Some (VStr "").
Proof.
  apply (proj1 (whitespace_optional_field_stored_empty
                  Examples.blank_mobile2_form
                  (mk_datetime 2024 1 15 0 0 0 0 None)
                  (mk_datetime 2024 1 10 0 0 0 0 None) Examples.noon
                  "   " ltac:(discriminate) eq_refl)).
  reflexivity.
Defined.

(** The whole request: the stored document has [mobile2] empty. *)
Lemma submit_whitespace_mobile2_run :
  exists d : doc,
    snd (submit_contact Reference.fromisoformat Examples.noon Examples.an_id
           Examples.blank_mobile2_form []) = [d]
    /\ Dict.get "mobile2" d = Some (VStr "").
Proof. eexists. split; vm_compute; reflexivity. Qed.

(** ** [update_contact] *)

Section UpdateFacts.

Variable fromisoformat : string -> option datetime.

Abbreviation update_contact' := (update_contact fromisoformat).

Lemma update_contact_valid (id : string) (data data' : doc) (st : store) :
  ObjectId.is_valid id = true ->
  reparse_dates fromisoformat data = Ok data' ->
  update_contact' id data st =
    match Collection.set_first (PyStr.lower id) data' st with
    | Ok (n, st') =>
        if n =? 0
        then (Raise (HTTPException 404 "Contact not found or no changes made"),
              st')
        else (Ok [ ("status", VStr "success");
                   ("message", VStr "Contact updated") ], st')
    | Raise e => (Raise e, st)
    end.
Proof.
  intros Hv Hd.
  unfold update_contact, bind, lift, ObjectId.make, Collection.update_one.
  rewrite Hv, Hd. simpl.
  destruct (Collection.set_first (PyStr.lower id) data' st) as [[n st']|e];
    [|reflexivity].
  destruct (n =? 0); reflexivity.
Qed.

(** C6: for a well-formed identifier of a record that is there and a field
    map whose application leaves the record as it was (the empty map
    included), update answers 404 and leaves the collection alone, which is
    also its answer when no record has the identifier. *)
Theorem noop_update_reports_not_found
        (id : string) (data data' : doc) (st : store) (d : doc) :
  ObjectId.is_valid id = true ->
  reparse_dates fromisoformat data = Ok data' ->
  find (Collection.has_id (PyStr.lower id)) st = Some d ->
  Dict.update data' d = d ->
  update_contact' id data st =
    (Raise (HTTPException 404 "Contact not found or no changes made"), st)
  /\ forall st0 : store,
       existsb (Collection.has_id (PyStr.lower id)) st0 = false ->
       update_contact' id data st0 =
         (Raise (HTTPException 404 "Contact not found or no changes made"),
          st0).
Proof.
  intros Hv Hd Hf Hsame. split.
  - rewrite (update_contact_valid id data data' st Hv Hd).
    rewrite (CollectionFacts.set_first_unchanged _ _ _ _ Hf Hsame).
    reflexivity.
  - intros st0 Hout.
    rewrite (update_contact_valid id data data' st0 Hv Hd).
    rewrite (CollectionFacts.set_first_absent _ _ _ Hout). reflexivity.
Qed.

End UpdateFacts.

Lemma noop_update_reports_not_found_witness :
  (update_contact Reference.fromisoformat Examples.an_id []
     Examples.one_contact
   = (Raise (HTTPException 404 "Contact not found or no changes made"),
      Examples.one_contact))
  /\ (update_contact Reference.fromisoformat Examples.an_id
        [("name", VStr "Jo Doe")] Examples.one_contact
      = (Raise (HTTPException 404 "Contact not found or no changes made"),
         Examples.one_contact))
  /\ (update_contact Reference.fromisoformat Examples.an_id [] []
      = (Raise (HTTPException 404 "Contact not found or no changes made"),
         [])).
Proof.
  split; [|split].
  - eapply (proj1 (noop_update_reports_not_found Reference.fromisoformat
                     Examples.an_id [] [] Examples.one_contact _
                     eq_refl eq_refl eq_refl eq_refl)).
  - eapply (proj1 (noop_update_reports_not_found Reference.fromisoformat
                     Examples.an_id [("name", VStr "Jo Doe")]
                     [("name", VStr "Jo Doe")] Examples.one_contact _
                     eq_refl eq_refl eq_refl eq_refl)).
  - eapply (proj2 (noop_update_reports_not_found Reference.fromisoformat
                     Examples.an_id [] [] Examples.one_contact _
                     eq_refl eq_refl eq_refl eq_refl) [] eq_refl).
Defined.

(** A field map that names [created_at] replaces the record's creation
    time, here by a text, and update answers success. *)
Lemma update_overwrites_created_at :
  update_contact Reference.fromisoformat Examples.an_id
    [("created_at", VStr "1999-01-01")] Examples.one_contact
  = (Ok [ ("status", VStr "success"); ("message", VStr "Contact updated") ],
     [ [ ("_id", VOid Examples.an_id); ("company_name", VStr "ACME Corp");
         ("name", VStr "Jo Doe"); ("mobile", VStr "9876543210");
         ("disposition", VStr "Interested");
         ("created_at", VStr "1999-01-01") ] ])
  /\ Dict.get "created_at" (hd [] Examples.one_contact)
     = Some (VDate Examples.noon).
Proof. split; vm_compute; reflexivity. Qed.

(** ** Where [created_at] comes from *)

Module StampFacts.
Import Collection.

Lemma has_id_get (oid : string) (d : doc) :
  has_id oid d = true -> Dict.get "_id" d = Some (VOid oid).
Proof.
  unfold has_id. destruct (Dict.get "_id" d) as [[]|]; try discriminate.
  intros H. apply String.eqb_eq in H. subst. reflexivity.
Qed.

Lemma unchanged_id (oid : string) (d' d : doc) :
  has_id oid d = true -> changes_id d' d = false ->
  Dict.get "_id" d' = Dict.get "_id" d.
Proof.
  intros Hid Hc. rewrite (has_id_get _ _ Hid) in *. unfold changes_id in Hc.
  rewrite (has_id_get _ _ Hid) in Hc.
  destruct (Dict.get "_id" d') as [v|]; [|discriminate].
  destruct v; simpl in Hc; try discriminate.
  destruct (String.eqb hex oid) eqn:E; [|discriminate].
  apply String.eqb_eq in E. subst. reflexivity.
Qed.

(** Every document after a [$set] that does not name [created_at] is a
    document from before, with its identifier and its creation time. *)
Lemma set_first_stamps (oid : string) (data : doc) (st st' : store) (n : Z) :
  Dict.get "created_at" data = None ->
  set_first oid data st = Ok (n, st') ->
  forall d', In d' st' ->
    exists d, In d st
              /\ Dict.get "_id" d' = Dict.get "_id" d
              /\ Dict.get "created_at" d' = Dict.get "created_at" d.
Proof.
  intros Hdata. revert n st'.
  induction st as [|x r IH]; intros n st'; simpl.
  - intros [= _ <-] d' [].
  - destruct (has_id oid x) eqn:Hid.
    + destruct (changes_id (Dict.update data x) x) eqn:Hc; [discriminate|].
      intros [= _ <-] d' [<- | Hin].
      * exists x. split; [left; reflexivity|]. split.
        -- exact (unchanged_id _ _ _ Hid Hc).
        -- apply DictFacts.get_update_absent. exact Hdata.
      * exists d'. auto using in_cons.
    + destruct (set_first oid data r) as [[m r']|e] eqn:E; [|discriminate].
      intros [= _ <-] d' [<- | Hin].
      * exists x. split; [left; reflexivity | auto].
      * destruct (IH m r' eq_refl d' Hin) as (d & Hd & Hs).
        exists d. split; [right; exact Hd | exact Hs].
Qed.

End StampFacts.

(** The export reads the collection and leaves it as it is, whether the
    sheet is written or the request ends in the 500. *)
Lemma export_excel_keeps_store py_str strftime holds sort_desc tmp_file
    to_excel (now : datetime) (st : store) :
  snd (export_excel py_str strftime holds sort_desc tmp_file to_excel now st)
  = st.
Proof.
  unfold export_excel, try_except, lift, raise. cbv beta zeta.
  match goal with |- context [rbind ?r ?k] =>
    destruct (rbind r k) as [a|e] end; reflexivity.
Qed.

Section StampInvariant.

Variable fromisoformat : string -> option datetime.
Variable py_str : value -> string.
Variable exn_str : exn -> string.
Variable strftime : string -> datetime -> string.
Variable holds : doc -> string -> cond -> bool.
Variable sort_desc : string -> list doc -> list doc.
Variable tmp_file : result string.
Variable to_excel : DataFrame -> string -> result unit.

Abbreviation serve' :=
  (serve fromisoformat py_str exn_str strftime holds sort_desc
     tmp_file to_excel).
Abbreviation serve_all' :=
  (serve_all fromisoformat py_str exn_str strftime holds sort_desc
     tmp_file to_excel).

Lemma reparse_keeps (k field : string) (data data' : doc) :
  k <> field -> reparse fromisoformat field data = Ok data' ->
  Dict.get k data' = Dict.get k data.
Proof.
  intros Hne. unfold reparse, parse_date.
  destruct (Dict.get field data) as [[]|]; try (intros [= <-]; reflexivity).
  destruct (fromisoformat s); simpl; [|discriminate].
  intros [= <-]. apply DictFacts.get_set_ne. exact Hne.
Qed.

Lemma reparse_dates_keeps_created_at (data data' : doc) :
  reparse_dates fromisoformat data = Ok data' ->
  Dict.get "created_at" data' = Dict.get "created_at" data.
Proof.
  unfold reparse_dates.
  destruct (reparse fromisoformat "call_date" data) as [d1|] eqn:E1;
    simpl; [|discriminate].
  intros E2.
  rewrite (reparse_keeps "created_at" "lead_entry_date" d1 data'
             ltac:(discriminate) E2).
  apply (reparse_keeps "created_at" "call_date" data d1 ltac:(discriminate) E1).
Qed.

(** The documents after one request: each was there before, identifier and
    creation time unchanged, or is the one a [Submit] has just inserted,
    stamped with that request's clock. *)
Lemma serve_stamps (r : request) (st : store) (d' : doc) :
  names_created_at r = false ->
  In d' (serve' r st) ->
  (exists d, In d st
             /\ Dict.get "_id" d' = Dict.get "_id" d
             /\ Dict.get "created_at" d' = Dict.get "created_at" d)
  \/ (exists utcnow oid f,
        r = Submit utcnow oid f
        /\ Dict.get "_id" d' = Some (VOid oid)
        /\ Dict.get "created_at" d' = Some (VDate utcnow)).
Proof.
  intros Hr.
  assert (Hsame : In d' st ->
    (exists d, In d st
               /\ Dict.get "_id" d' = Dict.get "_id" d
               /\ Dict.get "created_at" d' = Dict.get "created_at" d)
    \/ (exists utcnow oid f,
          r = Submit utcnow oid f
          /\ Dict.get "_id" d' = Some (VOid oid)
          /\ Dict.get "created_at" d' = Some (VDate utcnow))).
  { intros H. left. exists d'. auto. }
  destruct r as [utcnow oid f | p | id data | now | cid | cid]; simpl.
  - rewrite submit_contact_cases.
    destruct (fromisoformat (Form.call_date f)) as [call|]; [|exact Hsame].
    destruct (fromisoformat (Form.lead_entry_date f)) as [lead|];
      [|exact Hsame].
    destruct (existsb (Collection.has_id oid) st); [exact Hsame|].
    simpl. intros Hin. apply in_app_or in Hin as [Hin | [<- | []]].
    + exact (Hsame Hin).
    + right. exists utcnow, oid, f. repeat split; reflexivity.
  - unfold get_history, bind, lift.
    destruct (check_paging p) as [[]|]; [|exact Hsame].
    destruct (build_query fromisoformat p); [|exact Hsame].
    destruct (stringify_ids py_str _); exact Hsame.
  - simpl in Hr. unfold Dict.has in Hr.
    destruct (Dict.get "created_at" data) eqn:Hc; [discriminate|].
    unfold update_contact.
    destruct (ObjectId.is_valid id) eqn:Hv; simpl; [|exact Hsame].
    unfold bind at 1. unfold lift at 1.
    destruct (reparse_dates fromisoformat data) as [data'|e] eqn:Hd;
      [|exact Hsame].
    pose proof (update_contact_valid fromisoformat id data data' st Hv Hd)
      as Hu.
    unfold update_contact, bind at 1, lift at 1 in Hu.
    rewrite Hv, Hd in Hu. simpl in Hu. rewrite Hu. clear Hu.
    destruct (Collection.set_first (PyStr.lower id) data' st)
      as [[n st']|e] eqn:E; [|exact Hsame].
    assert (Hc' : Dict.get "created_at" data' = None).
    { rewrite (reparse_dates_keeps_created_at _ _ Hd). exact Hc. }
    intros Hin. left.
    apply (StampFacts.set_first_stamps _ _ _ _ _ Hc' E).
    destruct (n =? 0); exact Hin.
  - rewrite export_excel_keeps_store. exact Hsame.
  - unfold get_contact.
    destruct (ObjectId.is_valid cid); simpl; [|exact Hsame].
    unfold bind, lift, ObjectId.make, Collection.find_one.
    destruct (ObjectId.is_valid cid); [|exact Hsame].
    destruct (find _ st); [|exact Hsame].
    destruct (stringify_id py_str _); exact Hsame.
  - unfold delete_contact, try_except, bind, lift, ObjectId.make,
      Collection.delete_one.
    destruct (ObjectId.is_valid cid); [|exact Hsame].
    pose proof (CollectionFacts.remove_first_subset (PyStr.lower cid) st d')
      as Hsub.
    destruct (Collection.remove_first (PyStr.lower cid) st) as [n st'].
    simpl in Hsub. intros Hin. apply Hsame, Hsub.
    destruct (n =? 1); exact Hin.
Qed.

(** C7, as the code runs: over any sequence of requests in which no update
    names [created_at] in its field map, every record of the collection
    either was there at the start, with the same identifier and the same
    [created_at], or was inserted by a create of the sequence, and its
    [created_at] is that request's server clock, whatever the form held. *)
Theorem created_at_is_set_at_insertion
        (rs : list request) (st : store) (d' : doc) :
  Forall (fun r => names_created_at r = false) rs ->
  In d' (serve_all' rs st) ->
  (exists d, In d st
             /\ Dict.get "_id" d' = Dict.get "_id" d
             /\ Dict.get "created_at" d' = Dict.get "created_at" d)
  \/ (exists utcnow oid f,
        In (Submit utcnow oid f) rs
        /\ Dict.get "_id" d' = Some (VOid oid)
        /\ Dict.get "created_at" d' = Some (VDate utcnow)).
Proof.
  intros Hrs. revert st.
  induction Hrs as [|r rs Hr _ IH]; intros st; simpl.
  - intros Hin. left. exists d'. auto.
  - intros Hin. destruct (IH _ Hin) as [(d1 & Hd1 & Hi & Hc) | Hnew].
    + destruct (serve_stamps r st d1 Hr Hd1)
        as [(d & Hd & Hi' & Hc') | (u & o & f & -> & Hi' & Hc')].
      * left. exists d. split; [exact Hd|]. split; congruence.
      * right. exists u, o, f. split; [left; reflexivity|].
        split; congruence.
    + right. destruct Hnew as (u & o & f & Hin' & Hs).
      exists u, o, f. split; [right; exact Hin' | exact Hs].
Qed.

End StampInvariant.

Lemma created_at_is_set_at_insertion_witness :
  let d' := ("_id", VOid Examples.another_id)
            :: contact_of Examples.acme_form
                 (mk_datetime 2024 1 15 0 0 0 0 None)
                 (mk_datetime 2024 1 10 0 0 0 0 None) Examples.later in
  let rs := [ Submit Examples.later Examples.another_id Examples.acme_form;
              Update Examples.an_id [("name", VStr "J. Doe")];
              Update Examples.another_id [("disposition", VStr "Closed")];
              Delete Examples.an_id ] in
  (exists d, In d Examples.one_contact
             /\ Dict.get "_id" (Dict.set "disposition" (VStr "Closed") d')
                = Dict.get "_id" d
             /\ Dict.get "created_at"
                  (Dict.set "disposition" (VStr "Closed") d')
                = Dict.get "created_at" d)
  \/ (exists utcnow oid f,
        In (Submit utcnow oid f) rs
        /\ Dict.get "_id" (Dict.set "disposition" (VStr "Closed") d')
           = Some (VOid oid)
        /\ Dict.get "created_at" (Dict.set "disposition" (VStr "Closed") d')
           = Some (VDate utcnow)).
Proof.
  intros d' rs.
  apply (created_at_is_set_at_insertion Reference.fromisoformat
           Reference.py_str Reference.exn_str Reference.strftime
           Reference.holds Reference.sort_desc Reference.tmp_file
           Reference.to_excel rs Examples.one_contact).
  - repeat constructor.
  - vm_compute. left. reflexivity.
Defined.

(** ** [export_excel] *)

Section ExportFacts.

Variable py_str : value -> string.
Variable strftime : string -> datetime -> string.
Variable holds : doc -> string -> cond -> bool.
Variable sort_desc : string -> list doc -> list doc.
Variable tmp_file : result string.
Variable to_excel : DataFrame -> string -> result unit.

Abbreviation export_excel' :=
  (export_excel py_str strftime holds sort_desc tmp_file to_excel).

(** The frame of no record has no column, so the test on ["created_at"]
    skips the [drop], which would raise; what is left to fail is the
    temporary file and the writing of the sheet. *)
Lemma export_of_empty_collection_outcome (now : datetime) :
  sort_desc "created_at" [] = [] ->
  export_excel' now [] =
    match tmp_file with
    | Ok file_path =>
        match to_excel (mk_frame 0 []) file_path with
        | Ok _ =>
            (Ok (mk_file_response file_path
                   (String.append "Master_Export_"
                      (String.append (strftime "%Y%m%d_%H%M%S" now) ".xlsx"))
                   (mk_frame 0 [])), [])
        | Raise _ => (Raise (HTTPException 500 "Excel export failed"), [])
        end
    | Raise _ => (Raise (HTTPException 500 "Excel export failed"), [])
    end.
Proof.
  intros Hsort. unfold export_excel, try_except, find_all, lift, raise.
  rewrite !filter_nil, Hsort. simpl.
  change (Frame.of_records []) with (mk_frame 0 []).
  destruct tmp_file as [file_path|e]; simpl; [|reflexivity].
  destruct (to_excel (mk_frame 0 []) file_path) as [[]|e]; reflexivity.
Qed.

(** C9: on an empty collection (the store's sort of no document being no
    document), once the temporary file is there and the sheet without
    row or column is written to it, the export does not raise: it answers
    with that file, whose table has no data row and no column.  No step
    between the reading of the collection and the writing raises on the
    way, the removal of the ["created_at"] column being skipped. *)
Theorem export_of_empty_collection (now : datetime) (file_path : string) :
  sort_desc "created_at" [] = [] ->
  tmp_file = Ok file_path ->
  to_excel (mk_frame 0 []) file_path = Ok tt ->
  export_excel' now [] =
    (Ok (mk_file_response file_path
           (String.append "Master_Export_"
              (String.append (strftime "%Y%m%d_%H%M%S" now) ".xlsx"))
           (mk_frame 0 [])), []).
Proof.
  intros Hsort Htmp Hwrite.
  rewrite (export_of_empty_collection_outcome now Hsort), Htmp, Hwrite.
  reflexivity.
Qed.

End ExportFacts.

Lemma export_of_empty_collection_witness :
  export_excel Reference.py_str Reference.strftime Reference.holds
    Reference.sort_desc Reference.tmp_file Reference.to_excel
    Examples.noon []
  = (Ok (mk_file_response "/tmp/tmpq3k9x2vd.xlsx"
           "Master_Export_20240501_120000.xlsx"
           (mk_frame 0 [])), []).
Proof.
  apply (export_of_empty_collection Reference.py_str Reference.strftime
           Reference.holds Reference.sort_desc Reference.tmp_file
           Reference.to_excel Examples.noon "/tmp/tmpq3k9x2vd.xlsx");
    reflexivity.
Defined.

(** * Further properties *)

(** ** [login] *)

Module LoginFacts.
Import Login.

Lemma lower_truthy (s : string) : PyStr.truthy (PyStr.lower s) = PyStr.truthy s.
Proof. destruct s; reflexivity. Qed.

Lemma normalized_email_truthy (e : string) :
  PyStr.truthy (PyStr.lower (PyStr.strip e)) = negb (PyStr.blank e).
Proof. rewrite lower_truthy. apply PyStrFacts.truthy_strip. Qed.

Lemma normalized_in (items : list value) (allowed : list string) (a : string) :
  normalized items = Some allowed -> In (VStr a) items ->
  In (PyStr.lower (PyStr.strip a)) allowed.
Proof.
  revert allowed. induction items as [|v r IH]; intros allowed; simpl.
  - intros _ [].
  - destruct v; try discriminate.
    destruct (normalized r) as [l|]; [|discriminate].
    intros [= <-] [[= ->] | Hin]; [left; reflexivity|].
    right. apply IH; [reflexivity | exact Hin].
Qed.

Lemma existsb_eqb_in (x : string) (l : list string) :
  existsb (String.eqb x) l = true <-> In x l.
Proof.
  rewrite existsb_exists. split.
  - intros (y & Hy & E). apply String.eqb_eq in E. subst. exact Hy.
  - intros H. exists x. split; [exact H | apply String.eqb_refl].
Qed.

End LoginFacts.

Section LoginProperties.

Variable title : string -> string.

(** X1: a blank email or an empty password is answered 400 before the
    credentials record is read, whatever the [users] collection holds. *)
Theorem login_requires_both_fields (users : store) (request : LoginRequest) :
  PyStr.blank (login_email request) = true \/ login_password request = "" ->
  login title users request =
    Raise (HTTPException 400 "Email and password required").
Proof.
  intros H. unfold login.
  rewrite LoginFacts.normalized_email_truthy, negb_involutive.
  destruct H as [-> | ->]; [reflexivity|].
  rewrite orb_true_r. reflexivity.
Qed.

(** X2: an address of the allow-list is recognised whatever its letter case
    and surrounding white space, in the request and in the record; with
    the record's password the login succeeds, and the user name is made
    from what stands before ["@"] in the normalised address. *)
Theorem login_accepts_allowed_email
        (user_doc : doc) (rest : store) (items : list value)
        (allowed : list string) (a : string) (request : LoginRequest) :
  PyStr.blank (login_email request) = false ->
  login_password request <> "" ->
  user_doc <> [] ->
  Dict.get "allowed_emails" user_doc = Some (VList items) ->
  Login.normalized items = Some allowed ->
  In (VStr a) items ->
  PyStr.lower (PyStr.strip a) =
    PyStr.lower (PyStr.strip (login_email request)) ->
  Dict.get "password" user_doc = Some (VStr (login_password request)) ->
  login title (user_doc :: rest) request =
    Ok [ ("status", VStr "success");
         ("message", VStr "Login successful");
         ("user",
          VStr (title (Login.dots_to_spaces
                         (Login.before_at
                            (PyStr.lower
                               (PyStr.strip (login_email request))))))) ].
Proof.
  intros He Hp Hdoc Hlist Hnorm Hin Hsame Hpw. unfold login.
  rewrite LoginFacts.normalized_email_truthy, He.
  destruct (login_password request) as [|c p] eqn:Ep; [congruence|].
  simpl negb. simpl orb. cbv iota.
  destruct user_doc as [|kv user_doc']; [congruence|].
  unfold Login.allowed_emails. rewrite Hlist, Hnorm.
  unfold Login.password_matches. rewrite Hpw, String.eqb_refl.
  rewrite (proj2 (LoginFacts.existsb_eqb_in _ allowed)); [reflexivity|].
  rewrite <- Hsame. exact (LoginFacts.normalized_in _ _ _ Hnorm Hin).
Qed.

(** X3: with a usable credentials record, an address that is not on the
    normalised allow-list, or a password that is not the record's, is
    answered 401: the handler lets its own [HTTPException] through. *)
Theorem login_rejects_with_401
        (user_doc : doc) (rest : store) (allowed : list string)
        (request : LoginRequest) :
  PyStr.blank (login_email request) = false ->
  login_password request <> "" ->
  user_doc <> [] ->
  Login.allowed_emails user_doc = Some allowed ->
  ~ In (PyStr.lower (PyStr.strip (login_email request))) allowed
  \/ Login.password_matches (login_password request) user_doc = false ->
  login title (user_doc :: rest) request =
    Raise (HTTPException 401 "Invalid email or password").
Proof.
  intros He Hp Hdoc Hallowed Hbad. unfold login.
  rewrite LoginFacts.normalized_email_truthy, He.
  destruct (login_password request) as [|c p] eqn:Ep; [congruence|].
  simpl negb. simpl orb. cbv iota.
  destruct user_doc as [|kv user_doc']; [congruence|].
  rewrite Hallowed.
  destruct Hbad as [Hout | ->].
  - destruct (existsb _ allowed) eqn:E; [|reflexivity].
    apply LoginFacts.existsb_eqb_in in E. contradiction.
  - rewrite andb_false_r. reflexivity.
Qed.

(** X4: without a credentials record, or with one whose [allowed_emails]
    cannot be read as texts, a filled-in login is answered 500. *)
Theorem login_broken_record_is_500 (users : store) (request : LoginRequest) :
  PyStr.blank (login_email request) = false ->
  login_password request <> "" ->
  users = []
  \/ (exists user_doc rest,
        users = user_doc :: rest /\ Login.allowed_emails user_doc = None) ->
  exists detail : string,
    login title users request = Raise (HTTPException 500 detail).
Proof.
  intros He Hp Hbroken. unfold login.
  rewrite LoginFacts.normalized_email_truthy, He.
  destruct (login_password request) as [|c p] eqn:Ep; [congruence|].
  simpl negb. simpl orb. cbv iota.
  destruct Hbroken as [-> | (user_doc & rest & -> & Hnone)]; [eauto|].
  destruct user_doc as [|kv user_doc']; [eauto|].
  rewrite Hnone. eauto.
Qed.

End LoginProperties.

Lemma login_requires_both_fields_witness :
  login ReferenceText.title [] (mk_login "  " "s3cret")
  = Raise (HTTPException 400 "Email and password required").
Proof.
  apply (login_requires_both_fields ReferenceText.title []
           (mk_login "  " "s3cret")).
  left. reflexivity.
Defined.

Lemma login_accepts_allowed_email_witness :
  login ReferenceText.title MoreExamples.credentials
    (mk_login "JOHN.DOE@X.COM" "s3cret")
  = Ok [ ("status", VStr "success");
         ("message", VStr "Login successful");
         ("user", VStr "John Doe") ].
Proof.
  apply (login_accepts_allowed_email ReferenceText.title _ []
           [VStr "john.doe@x.com"; VStr " Ann@X.com "]
           ["john.doe@x.com"; "ann@x.com"] "john.doe@x.com"
           (mk_login "JOHN.DOE@X.COM" "s3cret"));
    try reflexivity; try discriminate.
  left. reflexivity.
Defined.

Lemma login_rejects_with_401_witness :
  login ReferenceText.title MoreExamples.credentials
    (mk_login "john.doe@x.com" "guess")
  = Raise (HTTPException 401 "Invalid email or password").
Proof.
  apply (login_rejects_with_401 ReferenceText.title _ []
           ["john.doe@x.com"; "ann@x.com"] (mk_login "john.doe@x.com" "guess"));
    try reflexivity; try discriminate.
  right. reflexivity.
Defined.

Lemma login_broken_record_is_500_witness :
  exists detail : string,
    login ReferenceText.title
      [ [ ("_id", VOid "64b7f0c2a1b2c3d4e5f60718");
          ("allowed_emails", VList [VStr "a@x.com"; VInt 7]);
          ("password", VStr "s3cret") ] ]
      (mk_login "a@x.com" "s3cret")
    = Raise (HTTPException 500 detail).
Proof.
  apply (login_broken_record_is_500 ReferenceText.title _
           (mk_login "a@x.com" "s3cret"));
    try reflexivity; try discriminate.
  right. eexists. eexists. split; reflexivity.
Defined.

(** ** Identifiers across the handlers *)

Module LookupFacts.
Import Collection.

Lemma find_absent (oid : string) (st : store) :
  existsb (has_id oid) st = false -> find (has_id oid) st = None.
Proof.
  induction st as [|d r IH]; simpl; [reflexivity|].
  destruct (has_id oid d); simpl; [discriminate | exact IH].
Qed.

Lemma find_after (oid : string) (a b : store) (d : doc) :
  existsb (has_id oid) a = false -> has_id oid d = true ->
  find (has_id oid) (a ++ d :: b) = Some d.
Proof.
  intros Ha Hd. induction a as [|x r IH]; simpl in *.
  - rewrite Hd. reflexivity.
  - destruct (has_id oid x); simpl in Ha; [discriminate|]. exact (IH Ha).
Qed.

Lemma remove_first_after (oid : string) (a b : store) (d : doc) :
  existsb (has_id oid) a = false -> has_id oid d = true ->
  remove_first oid (a ++ d :: b) = (1, a ++ b).
Proof.
  intros Ha Hd. induction a as [|x r IH]; simpl in *.
  - rewrite Hd. reflexivity.
  - destruct (has_id oid x); simpl in Ha; [discriminate|].
    rewrite (IH Ha). reflexivity.
Qed.

Lemma set_first_after (oid : string) (data : doc) (a b : store) (d : doc) :
  existsb (has_id oid) a = false -> has_id oid d = true ->
  changes_id (Dict.update data d) d = false ->
  set_first oid data (a ++ d :: b) =
    Ok (if doc_eqb (Dict.update data d) d then 0 else 1,
        a ++ Dict.update data d :: b).
Proof.
  intros Ha Hd Hc. induction a as [|x r IH]; simpl in *.
  - rewrite Hd, Hc. reflexivity.
  - destruct (has_id oid x); simpl in Ha; [discriminate|].
    rewrite (IH Ha). reflexivity.
Qed.

Lemma set_first_length (oid : string) (data : doc) (st st' : store) (n : Z) :
  set_first oid data st = Ok (n, st') -> List.length st' = List.length st.
Proof.
  revert n st'. induction st as [|x r IH]; intros n st'; simpl.
  - intros [= _ <-]. reflexivity.
  - destruct (has_id oid x).
    + destruct (changes_id (Dict.update data x) x); [discriminate|].
      intros [= _ <-]. reflexivity.
    + destruct (set_first oid data r) as [[m r']|e] eqn:E; [|discriminate].
      intros [= _ <-]. simpl. rewrite (IH m r' eq_refl). reflexivity.
Qed.

Lemma has_id_new (oid : string) (d : doc) :
  has_id oid (("_id", VOid oid) :: d) = true.
Proof. unfold has_id. simpl. apply String.eqb_refl. Qed.

End LookupFacts.

Module BadIdFacts.

Lemma foreign_char_is_no_digit (s : string) :
  BadId.has_foreign_char s = true -> ObjectId.all_hex s = false.
Proof.
  induction s as [|c r IH]; simpl; [discriminate|].
  destruct (ObjectId.is_hex c); simpl; [|reflexivity].
  exact IH.
Qed.

(** What is surely malformed is refused by the 24-digit test too. *)
Lemma malformed_is_invalid (s : string) :
  BadId.malformed s = true -> ObjectId.is_valid s = false.
Proof.
  unfold BadId.malformed, ObjectId.is_valid.
  destruct (String.length s =? 24)%nat; simpl; [|reflexivity].
  apply foreign_char_is_no_digit.
Qed.

End BadIdFacts.

Section IdentifierProperties.

Variable fromisoformat : string -> option datetime.
Variable py_str : value -> string.
Variable exn_str : exn -> string.

(** X5: an identifier that is surely malformed (it has not 24 characters,
    or one of them is neither a hexadecimal digit nor white space):
    [get_contact] and [update_contact] answer 400, the update before it
    looks at the field map (a date that does not parse is not reached);
    [delete_contact] has no such check and answers 500, with the text of
    the [InvalidId] that the making of the identifier raises.  None of
    them touches the collection. *)
Theorem malformed_identifier_outcomes
        (id : string) (data : doc) (st : store) :
  BadId.malformed id = true ->
  get_contact py_str id st = (Raise (HTTPException 400 "Invalid ID"), st)
  /\ update_contact fromisoformat id data st =
       (Raise (HTTPException 400 "Invalid ID"), st)
  /\ delete_contact exn_str id st =
       (Raise (HTTPException 500
                 (String.append "Error deleting contact: "
                    (exn_str (InvalidId id)))), st).
Proof.
  intros Hbad. pose proof (BadIdFacts.malformed_is_invalid id Hbad) as Hv.
  unfold get_contact, update_contact, delete_contact, try_except,
    bind, lift, ObjectId.make.
  rewrite Hv. repeat split.
Qed.

(** X6: a well-formed identifier that no record has: [get_contact] answers
    404 (it has no catch-all around its raise) and leaves the collection
    alone. *)
Theorem get_contact_missing_is_404 (contact_id : string) (st : store) :
  ObjectId.is_valid contact_id = true ->
  existsb (Collection.has_id (PyStr.lower contact_id)) st = false ->
  get_contact py_str contact_id st =
    (Raise (HTTPException 404 "Contact not found"), st).
Proof.
  intros Hv Hout. unfold get_contact, bind, lift, ObjectId.make,
    Collection.find_one.
  rewrite Hv. simpl. rewrite (LookupFacts.find_absent _ _ Hout). reflexivity.
Qed.

(** X7: create, then read: for a contact saved under a fresh identifier,
    with call and lead dates that the store keeps as they are (naive, on a
    whole millisecond), [get_contact] answers with the saved fields, [_id]
    as text, and a [created_at] that is the clock of the saving down to
    the millisecond. *)
Theorem submit_then_get_roundtrip
        (utcnow call lead : datetime) (oid : string) (f : Form.t) (st : store) :
  ObjectId.is_valid oid = true ->
  PyStr.lower oid = oid ->
  existsb (Collection.has_id oid) st = false ->
  fromisoformat (Form.call_date f) = Some call ->
  fromisoformat (Form.lead_entry_date f) = Some lead ->
  Bson.exact_date call = true ->
  Bson.exact_date lead = true ->
  tzinfo utcnow = None ->
  exists created : datetime,
    fst (get_contact py_str oid
           (snd (submit_contact fromisoformat utcnow oid f st)))
    = Ok (("_id", VStr oid) :: contact_of f call lead created)
    /\ Bson.same_millisecond created utcnow.
Proof.
  intros Hv Hlow Hfresh Hc Hl _ _ Htz.
  rewrite submit_contact_cases, Hc, Hl, Hfresh. simpl snd.
  unfold get_contact, bind, lift, ObjectId.make, Collection.find_one.
  rewrite Hv, Hlow. change (negb true) with false. cbv beta iota.
  rewrite (LookupFacts.find_after oid st [] _ Hfresh
             (LookupFacts.has_id_new oid _)).
  exists utcnow. split; [reflexivity|].
  unfold Bson.same_millisecond. repeat split; assumption.
Qed.

(** X8: create, then delete: deleting the contact just saved answers
    [deleted_count] 1 and gives back the collection as it was. *)
Theorem submit_then_delete_restores
        (utcnow : datetime) (oid : string) (f : Form.t) (st : store) :
  ObjectId.is_valid oid = true ->
  PyStr.lower oid = oid ->
  existsb (Collection.has_id oid) st = false ->
  fromisoformat (Form.call_date f) <> None ->
  fromisoformat (Form.lead_entry_date f) <> None ->
  delete_contact exn_str oid
    (snd (submit_contact fromisoformat utcnow oid f st))
  = (Ok [ ("status", VStr "success");
          ("message", VStr "Contact deleted successfully");
          ("deleted_count", VInt 1) ], st).
Proof.
  intros Hv Hlow Hfresh Hc Hl.
  rewrite submit_contact_cases.
  destruct (fromisoformat (Form.call_date f)) as [call|]; [|congruence].
  destruct (fromisoformat (Form.lead_entry_date f)) as [lead|]; [|congruence].
  rewrite Hfresh. simpl snd.
  unfold delete_contact, try_except, bind, lift, ObjectId.make,
    Collection.delete_one.
  rewrite Hv, Hlow.
  rewrite (LookupFacts.remove_first_after oid st [] _ Hfresh
             (LookupFacts.has_id_new oid _)).
  rewrite app_nil_r. reflexivity.
Qed.

(** X9: [delete_contact] removes the first record with the identifier and
    nothing else: the records before and after it stay, in order. *)
Theorem delete_removes_first_match
        (contact_id : string) (a b : store) (d : doc) :
  ObjectId.is_valid contact_id = true ->
  existsb (Collection.has_id (PyStr.lower contact_id)) a = false ->
  Collection.has_id (PyStr.lower contact_id) d = true ->
  delete_contact exn_str contact_id (a ++ d :: b)
  = (Ok [ ("status", VStr "success");
          ("message", VStr "Contact deleted successfully");
          ("deleted_count", VInt 1) ], a ++ b).
Proof.
  intros Hv Ha Hd.
  unfold delete_contact, try_except, bind, lift, ObjectId.make,
    Collection.delete_one.
  rewrite Hv, (LookupFacts.remove_first_after _ a b d Ha Hd). reflexivity.
Qed.

(** X10: whatever it is given, [delete_contact] either succeeds, taking one
    record away, or answers 500 and leaves the collection as it was; it
    answers no 400 and no 404. *)
Theorem delete_contact_outcomes (contact_id : string) (st : store) :
  (exists st' : store,
     delete_contact exn_str contact_id st
     = (Ok [ ("status", VStr "success");
             ("message", VStr "Contact deleted successfully");
             ("deleted_count", VInt 1) ], st')
     /\ List.length st = S (List.length st'))
  \/ (exists detail : string,
        delete_contact exn_str contact_id st
        = (Raise (HTTPException 500 detail), st)).
Proof.
  unfold delete_contact, try_except, bind, lift, ObjectId.make,
    Collection.delete_one.
  destruct (ObjectId.is_valid contact_id); [|right; eauto].
  generalize (PyStr.lower contact_id). intros oid.
  induction st as [|x r IH]; simpl; [right; eauto|].
  destruct (Collection.has_id oid x); [left; eauto|].
  destruct (Collection.remove_first oid r) as [n r'].
  destruct IH as [(st' & E & Hlen) | (detail & E)].
  - destruct (n =? 1) eqn:En; [|discriminate].
    injection E as E1 E2.
    left. exists (x :: st'). subst. split; [reflexivity|].
    simpl. rewrite Hlen. reflexivity.
  - destruct (n =? 1) eqn:En; [discriminate|].
    injection E as E1 E2. right. subst. eauto.
Qed.

End IdentifierProperties.

Lemma malformed_identifier_outcomes_witness :
  get_contact Reference.py_str "42" Examples.one_contact
  = (Raise (HTTPException 400 "Invalid ID"), Examples.one_contact)
  /\ update_contact Reference.fromisoformat "42"
       [("call_date", VStr "soon")] Examples.one_contact
     = (Raise (HTTPException 400 "Invalid ID"), Examples.one_contact)
  /\ delete_contact Reference.exn_str "42" Examples.one_contact
     = (Raise (HTTPException 500
                 (String.append "Error deleting contact: "
                    (Reference.exn_str (InvalidId "42")))),
        Examples.one_contact).
Proof.
  apply (malformed_identifier_outcomes Reference.fromisoformat
           Reference.py_str Reference.exn_str "42"
           [("call_date", VStr "soon")] Examples.one_contact).
  reflexivity.
Defined.

Lemma get_contact_missing_is_404_witness :
  get_contact Reference.py_str Examples.another_id Examples.one_contact
  = (Raise (HTTPException 404 "Contact not found"), Examples.one_contact).
Proof.
  apply (get_contact_missing_is_404 Reference.py_str Examples.another_id
           Examples.one_contact); reflexivity.
Defined.

Lemma submit_then_get_roundtrip_witness :
  exists created : datetime,
    fst (get_contact Reference.py_str Examples.another_id
           (snd (submit_contact Reference.fromisoformat
                   (mk_datetime 2024 6 2 9 30 0 123456 None)
                   Examples.another_id Examples.acme_form
                   Examples.one_contact)))
    = Ok (("_id", VStr Examples.another_id)
          :: contact_of Examples.acme_form
               (mk_datetime 2024 1 15 0 0 0 0 None)
               (mk_datetime 2024 1 10 0 0 0 0 None) created)
    /\ Bson.same_millisecond created
         (mk_datetime 2024 6 2 9 30 0 123456 None).
Proof.
  apply (submit_then_get_roundtrip Reference.fromisoformat Reference.py_str
           (mk_datetime 2024 6 2 9 30 0 123456 None)
           (mk_datetime 2024 1 15 0 0 0 0 None)
           (mk_datetime 2024 1 10 0 0 0 0 None) Examples.another_id
           Examples.acme_form Examples.one_contact); reflexivity.
Defined.

Lemma submit_then_delete_restores_witness :
  delete_contact Reference.exn_str Examples.another_id
    (snd (submit_contact Reference.fromisoformat Examples.later
            Examples.another_id Examples.acme_form Examples.one_contact))
  = (Ok [ ("status", VStr "success");
          ("message", VStr "Contact deleted successfully");
          ("deleted_count", VInt 1) ], Examples.one_contact).
Proof.
  apply (submit_then_delete_restores Reference.fromisoformat
           Reference.exn_str Examples.later Examples.another_id
           Examples.acme_form Examples.one_contact);
    try reflexivity; vm_compute; discriminate.
Defined.

Lemma delete_removes_first_match_witness :
  delete_contact Reference.exn_str Examples.an_id
    ([] ++ hd [] Examples.one_contact :: Examples.one_contact)
  = (Ok [ ("status", VStr "success");
          ("message", VStr "Contact deleted successfully");
          ("deleted_count", VInt 1) ], [] ++ Examples.one_contact).
Proof.
  apply (delete_removes_first_match Reference.exn_str Examples.an_id []
           Examples.one_contact (hd [] Examples.one_contact)); reflexivity.
Defined.

(** ** [update_contact], when it changes something *)

Module UpdateDictFacts.
Import Dict.




End UpdateDictFacts.

Section UpdateProperties.

Variable fromisoformat : string -> option datetime.

(** X11: an update that changes the record, with a field map of top-level
    names and of values that the store keeps as they are (no dotted or
    ["$"] name, integers of 64 bits, naive dates on a whole millisecond),
    answers success; the record takes the fields of the map (dates
    re-parsed), keeps its place, and every other record is left as it
    was. *)
Theorem update_changes_only_the_matched_record
        (id : string) (data data' : doc) (a b : store) (d : doc) :
  ObjectId.is_valid id = true ->
  reparse_dates fromisoformat data = Ok data' ->
  Bson.exact_fields data' = true ->
  existsb (Collection.has_id (PyStr.lower id)) a = false ->
  Collection.has_id (PyStr.lower id) d = true ->
  Collection.changes_id (Dict.update data' d) d = false ->
  doc_eqb (Dict.update data' d) d = false ->
  update_contact fromisoformat id data (a ++ d :: b)
  = (Ok [ ("status", VStr "success"); ("message", VStr "Contact updated") ],
     a ++ Dict.update data' d :: b).
Proof.
  intros Hv Hd _ Ha Hid Hc Hne.
  rewrite (update_contact_valid fromisoformat id data data' _ Hv Hd).
  rewrite (LookupFacts.set_first_after _ data' a b d Ha Hid Hc), Hne.
  reflexivity.
Qed.

(** X12: [update_contact] never adds or removes a record: an identifier that
    no record has creates nothing. *)
Theorem update_keeps_record_count (id : string) (data : doc) (st : store) :
  List.length (snd (update_contact fromisoformat id data st))
  = List.length st.
Proof.
  unfold update_contact.
  destruct (ObjectId.is_valid id) eqn:Hv; simpl; [|reflexivity].
  unfold bind at 1, lift at 1.
  destruct (reparse_dates fromisoformat data) as [data'|e] eqn:Hd;
    [|reflexivity].
  pose proof (update_contact_valid fromisoformat id data data' st Hv Hd) as Hu.
  unfold update_contact, bind at 1, lift at 1 in Hu.
  rewrite Hv, Hd in Hu. simpl in Hu. rewrite Hu. clear Hu.
  destruct (Collection.set_first (PyStr.lower id) data' st)
    as [[n st']|e] eqn:E; [|reflexivity].
  pose proof (LookupFacts.set_first_length _ _ _ _ _ E) as Hlen.
  destruct (n =? 0); exact Hlen.
Qed.

(** X13: a [call_date] or [lead_entry_date] given as a text that is not a date
    makes the update raise [ValueError], which is no [HTTPException]; the
    collection is not touched. *)
Theorem update_bad_date_raises_value_error
        (id : string) (data : doc) (field s : string) (st : store) :
  ObjectId.is_valid id = true ->
  field = "call_date" \/ field = "lead_entry_date" ->
  Dict.get field data = Some (VStr s) ->
  fromisoformat s = None ->
  update_contact fromisoformat id data st
  = (Raise (ValueError "Invalid isoformat string"), st).
Proof.
  intros Hv Hfield Hget Hbad. unfold update_contact. rewrite Hv. simpl negb.
  cbv iota. unfold bind at 1, lift at 1.
  assert (Hr : reparse_dates fromisoformat data
               = Raise (ValueError "Invalid isoformat string")).
  { unfold reparse_dates. destruct Hfield as [-> | ->].
    - assert (E : reparse fromisoformat "call_date" data
                  = Raise (ValueError "Invalid isoformat string")).
      { unfold reparse, parse_date. rewrite Hget, Hbad. reflexivity. }
      rewrite E. reflexivity.
    - destruct (reparse fromisoformat "call_date" data) as [d1|e] eqn:E1;
        simpl.
      + unfold reparse. rewrite (reparse_keeps fromisoformat
          "lead_entry_date" "call_date" data d1 ltac:(discriminate) E1), Hget.
        unfold parse_date. rewrite Hbad. reflexivity.
      + unfold reparse, parse_date in E1.
        destruct (Dict.get "call_date" data) as [[]|]; try discriminate.
        destruct (fromisoformat s0); simpl in E1; [discriminate|].
        symmetry. exact E1. }
  rewrite Hr. reflexivity.
Qed.



End UpdateProperties.

Lemma update_changes_only_the_matched_record_witness :
  update_contact Reference.fromisoformat Examples.an_id
    [("name", VStr "J. Doe"); ("call_date", VStr "2024-02-01")]
    ([] ++ hd [] Examples.one_contact :: [])
  = (Ok [ ("status", VStr "success"); ("message", VStr "Contact updated") ],
     [] ++ Dict.update
             [("name", VStr "J. Doe");
              ("call_date", VDate (mk_datetime 2024 2 1 0 0 0 0 None))]
             (hd [] Examples.one_contact) :: []).
Proof.
  apply (update_changes_only_the_matched_record Reference.fromisoformat
           Examples.an_id
           [("name", VStr "J. Doe"); ("call_date", VStr "2024-02-01")]
           [("name", VStr "J. Doe");
            ("call_date", VDate (mk_datetime 2024 2 1 0 0 0 0 None))]
           [] [] (hd [] Examples.one_contact)); reflexivity.
Defined.

Lemma update_bad_date_raises_value_error_witness :
  update_contact Reference.fromisoformat Examples.an_id
    [("lead_entry_date", VStr "next week")] Examples.one_contact
  = (Raise (ValueError "Invalid isoformat string"), Examples.one_contact).
Proof.
  apply (update_bad_date_raises_value_error Reference.fromisoformat
           Examples.an_id [("lead_entry_date", VStr "next week")]
           "lead_entry_date" "next week" Examples.one_contact);
    try reflexivity.
  right. reflexivity.
Defined.


(** ** [get_history]: pages *)

Module PageFacts.

Lemma in_firstn {A} (n : nat) (l : list A) (x : A) :
  In x (firstn n l) -> In x l.
Proof.
  intros H. rewrite <- (firstn_skipn n l). apply in_or_app. left. exact H.
Qed.

Lemma in_skipn {A} (n : nat) (l : list A) (x : A) :
  In x (skipn n l) -> In x l.
Proof.
  intros H. rewrite <- (firstn_skipn n l). apply in_or_app. right. exact H.
Qed.

(** Cutting a list into [k] slices of [n] gives back its first [k * n]
    elements. *)
Lemma slices_concat {A} (n k : nat) (l : list A) :
  List.concat (map (fun i => firstn n (skipn (i * n) l)) (seq 0 k))
  = firstn (k * n) l.
Proof.
  induction k as [|k IH]; [reflexivity|].
  rewrite seq_S, map_app, concat_app, IH. simpl.
  rewrite app_nil_r, take_take_drop. f_equal. lia.
Qed.

Lemma stringify_ids_length py_str (l h : list doc) :
  stringify_ids py_str l = Ok h -> List.length h = List.length l.
Proof.
  revert h. induction l as [|d r IH]; intros h; simpl.
  - intros [= <-]. reflexivity.
  - destruct (stringify_id py_str d) as [d'|]; simpl; [|discriminate].
    destruct (stringify_ids py_str r) as [r'|]; simpl; [|discriminate].
    intros [= <-]. simpl. rewrite (IH r' eq_refl). reflexivity.
Qed.

Lemma stringify_ids_in py_str (l h : list doc) (d' : doc) :
  stringify_ids py_str l = Ok h -> In d' h ->
  exists d, In d l /\ stringify_id py_str d = Ok d'.
Proof.
  revert h. induction l as [|x r IH]; intros h; simpl.
  - intros [= <-] [].
  - destruct (stringify_id py_str x) as [x'|] eqn:Ex; simpl; [|discriminate].
    destruct (stringify_ids py_str r) as [r'|]; simpl; [|discriminate].
    intros [= <-] [<- | Hin].
    + exists x. auto.
    + destruct (IH r' eq_refl Hin) as (d & Hd & E). exists d. auto.
Qed.

Lemma find_all_in holds (q : query) (st : store) (d : doc) :
  In d (find_all holds q st) -> In d st /\ matches holds q d = true.
Proof.
  unfold find_all. intros H. apply list_elem_of_In in H.
  apply list_elem_of_filter in H as [Hm Hin].
  apply list_elem_of_In in Hin. auto.
Qed.

Lemma matches_empty holds (d : doc) : matches holds ∅ d = true.
Proof. unfold matches. rewrite map_to_list_empty. reflexivity. Qed.

Lemma find_all_empty_query holds (st : store) : find_all holds ∅ st = st.
Proof.
  unfold find_all. induction st as [|d r IH]; [reflexivity|].
  rewrite filter_cons_True by apply matches_empty. rewrite IH. reflexivity.
Qed.

End PageFacts.

Module ReferenceFacts.

Lemma place_permutation (key : string) (d : doc) (sorted : list doc) :
  Reference.place key d sorted ≡ₚ d :: sorted.
Proof.
  induction sorted as [|x r IH]; simpl; [reflexivity|].
  destruct (Reference.newer key x d); [|reflexivity].
  rewrite IH. apply Permutation_swap.
Qed.

Lemma sort_desc_permutation (key : string) (l : list doc) :
  Reference.sort_desc key l ≡ₚ l.
Proof.
  unfold Reference.sort_desc. induction l as [|d r IH]; simpl; [reflexivity|].
  rewrite place_permutation, IH. reflexivity.
Qed.

End ReferenceFacts.

Section PageProperties.

Variable fromisoformat : string -> option datetime.
Variable py_str : value -> string.
Variable holds : doc -> string -> cond -> bool.
Variable sort_desc : string -> list doc -> list doc.

Abbreviation get_history' :=
  (get_history fromisoformat py_str holds sort_desc).
Abbreviation find_page' := (find_page holds sort_desc).

(** X15: a page that is returned holds at most [limit] records, and [limit] is
    at most 200; the answer repeats the page asked for and counts the
    documents that match, and the collection is left as it was. *)
Theorem history_page_is_bounded
        (p : Params.t) (st st' : store) (r : page_result) :
  get_history' p st = (Ok r, st') ->
  (Z.of_nat (List.length (r_history r)) <= Params.limit p <= 200)
  /\ r_page r = Params.page p
  /\ 0 <= r_total r <= Z.of_nat (List.length st)
  /\ st' = st.
Proof.
  unfold get_history, bind, lift, check_paging.
  destruct (Z.ltb_spec (Params.page p) 1); [discriminate|].
  destruct (Z.ltb_spec (Params.limit p) 1); [discriminate|].
  destruct (Z.ltb_spec 200 (Params.limit p)); [discriminate|]. simpl.
  destruct (build_query fromisoformat p) as [q|]; [|discriminate].
  destruct (stringify_ids py_str _) as [h|] eqn:Eh; [|discriminate].
  intros [= <- <-]. simpl.
  apply PageFacts.stringify_ids_length in Eh. rewrite Eh.
  unfold find_page. pose proof (firstn_le_length (Z.to_nat (Params.limit p))
    (skipn (Z.to_nat (skip_of (Params.page p) (Params.limit p)))
       (sort_desc "created_at" (find_all holds q st)))) as Hle.
  unfold count_documents, find_all in *.
  pose proof (length_filter (fun d => matches holds q d = true) st) as Hf.
  repeat split; try reflexivity; lia.
Qed.

(** X16: pages are cut from the sorted matches one after the other: the pages
    1 to [pages], put end to end, are all the matching documents in sorted
    order, each once. *)
Theorem pages_cover_all_matches (q : query) (limit : Z) (st : store) :
  1 <= limit ->
  (forall k l, List.length (sort_desc k l) = List.length l) ->
  List.concat
    (map (fun i : nat =>
            find_page' q (skip_of (Z.of_nat i) limit) limit st)
         (seq 1 (Z.to_nat (pages_of (count_documents holds q st) limit))))
  = sort_desc "created_at" (find_all holds q st).
Proof.
  intros Hl Hsort. unfold find_page, count_documents.
  set (l := sort_desc "created_at" (find_all holds q st)).
  set (total := Z.of_nat (List.length (find_all holds q st))).
  set (k := Z.to_nat (pages_of total limit)).
  rewrite <- (seq_shift k 0), map_map.
  rewrite (map_ext _ (fun i => firstn (Z.to_nat limit)
                                 (skipn (i * Z.to_nat limit) l))).
  - rewrite PageFacts.slices_concat. apply firstn_all2.
    subst l. rewrite Hsort.
    destruct (pages_of_bounds total limit ltac:(lia)) as [Hup _].
    subst k total.
    assert (0 <= pages_of (Z.of_nat (List.length (find_all holds q st))) limit).
    { unfold pages_of. apply Z.div_pos; lia. }
    nia.
  - intros i. unfold skip_of. do 2 f_equal. nia.
Qed.

(** X17: page [page] has a record exactly when it is one of the pages 1 to
    [pages]; a page past the last is empty, not an error. *)
Theorem page_has_records_iff_in_range
        (q : query) (page limit : Z) (st : store) :
  1 <= page -> 1 <= limit ->
  (forall k l, List.length (sort_desc k l) = List.length l) ->
  find_page' q (skip_of page limit) limit st <> []
  <-> page <= pages_of (count_documents holds q st) limit.
Proof.
  intros Hp Hl Hsort. unfold find_page, count_documents, skip_of.
  set (l := sort_desc "created_at" (find_all holds q st)).
  assert (Hlen : List.length l = List.length (find_all holds q st))
    by apply Hsort.
  rewrite <- Hlen.
  destruct (pages_of_bounds (Z.of_nat (List.length l)) limit ltac:(lia))
    as [Hup Hlow].
  set (n := Z.to_nat limit). set (s := Z.to_nat ((page - 1) * limit)).
  assert (Hcut : List.length (firstn n (skipn s l))
                 = Nat.min n (List.length l - s)).
  { rewrite length_take, length_drop. reflexivity. }
  split.
  - intros Hne.
    destruct (Z_le_gt_dec page (pages_of (Z.of_nat (List.length l)) limit))
      as [Hin | Hout]; [exact Hin|].
    exfalso. apply Hne. apply length_zero_iff_nil. rewrite Hcut.
    subst n s. nia.
  - intros Hin Hnil. apply (f_equal (@List.length doc)) in Hnil.
    rewrite Hcut in Hnil. simpl in Hnil. subst n s. nia.
Qed.

(** X18: with every text filter blank and no date range with both ends, the
    predicate is empty and [total] is the number of records in the
    collection. *)
Theorem no_filter_counts_everything (p : Params.t) :
  PyStr.blank (Params.search p) = true ->
  PyStr.blank (Params.company p) = true ->
  PyStr.blank (Params.phone p) = true ->
  PyStr.blank (Params.disposition p) = true ->
  Params.call_start p = "" \/ Params.call_end p = "" ->
  Params.lead_start p = "" \/ Params.lead_end p = "" ->
  Params.start p = "" \/ Params.end_ p = "" ->
  build_query fromisoformat p = Ok ∅
  /\ forall (st st' : store) (r : page_result),
       get_history' p st = (Ok r, st') ->
       r_total r = Z.of_nat (List.length st).
Proof.
  intros Hs Hc Hph Hd H1 H2 H3.
  assert (Hq : build_query fromisoformat p = Ok ∅).
  { unfold build_query. rewrite !PyStrFacts.truthy_strip, Hs, Hc, Hph, Hd.
    simpl negb. cbv iota zeta.
    rewrite (add_range_one_sided fromisoformat _ _ _ _ _ H1). simpl.
    rewrite (add_range_one_sided fromisoformat _ _ _ _ _ H2). simpl.
    apply (add_range_one_sided fromisoformat _ _ _ _ _ H3). }
  split; [exact Hq|].
  intros st st' r. unfold get_history, bind, lift.
  destruct (check_paging p) as [[]|]; [|discriminate].
  rewrite Hq. destruct (stringify_ids py_str _); [|discriminate].
  intros [= <- _]. simpl. unfold count_documents.
  rewrite PageFacts.find_all_empty_query. reflexivity.
Qed.

(** X19: every record of a returned page is a stored document that matches the
    predicate, with its [_id] replaced by its text and every other field
    as stored. *)
Theorem history_records_are_stored_matches
        (p : Params.t) (q : query) (st st' : store) (r : page_result)
        (d' : doc) :
  (forall k l x, In x (sort_desc k l) -> In x l) ->
  build_query fromisoformat p = Ok q ->
  get_history' p st = (Ok r, st') ->
  In d' (r_history r) ->
  exists (d : doc) (v : value),
    In d st /\ matches holds q d = true
    /\ Dict.get "_id" d = Some v
    /\ d' = Dict.set "_id" (VStr (str_of_value py_str v)) d
    /\ forall k, k <> "_id" -> Dict.get k d' = Dict.get k d.
Proof.
  intros Hsort Hq. unfold get_history, bind, lift.
  destruct (check_paging p) as [[]|]; [|discriminate].
  rewrite Hq. destruct (stringify_ids py_str _) as [h|] eqn:Eh; [|discriminate].
  intros [= <- _] Hin. simpl in Hin.
  destruct (PageFacts.stringify_ids_in _ _ _ _ Eh Hin) as (d & Hd & Ed).
  unfold find_page in Hd.
  apply PageFacts.in_firstn, PageFacts.in_skipn, Hsort in Hd.
  apply PageFacts.find_all_in in Hd as [Hst Hm].
  unfold stringify_id in Ed.
  destruct (Dict.get "_id" d) as [v|] eqn:Ev; [|discriminate].
  injection Ed as <-. exists d, v. repeat split; try assumption.
  intros k Hk. apply DictFacts.get_set_ne. exact Hk.
Qed.

End PageProperties.

Lemma pages_cover_all_matches_witness :
  List.concat
    (map (fun i : nat =>
            find_page Reference.holds Reference.sort_desc ∅
              (skip_of (Z.of_nat i) 2) 2 MoreExamples.three_contacts)
         (seq 1 (Z.to_nat
                   (pages_of
                      (count_documents Reference.holds ∅
                         MoreExamples.three_contacts) 2))))
  = Reference.sort_desc "created_at"
      (find_all Reference.holds ∅ MoreExamples.three_contacts).
Proof.
  apply (pages_cover_all_matches Reference.holds Reference.sort_desc ∅ 2
           MoreExamples.three_contacts); [lia|].
  intros k l. apply Permutation_length, ReferenceFacts.sort_desc_permutation.
Defined.

Lemma page_has_records_iff_in_range_witness :
  find_page Reference.holds Reference.sort_desc ∅ (skip_of 3 2) 2
    MoreExamples.three_contacts <> []
  <-> 3 <= pages_of (count_documents Reference.holds ∅
                       MoreExamples.three_contacts) 2.
Proof.
  apply (page_has_records_iff_in_range Reference.holds Reference.sort_desc ∅
           3 2 MoreExamples.three_contacts); [lia | lia |].
  intros k l. apply Permutation_length, ReferenceFacts.sort_desc_permutation.
Defined.

Lemma history_page_is_bounded_witness :
  exists r : page_result,
    get_history Reference.fromisoformat Reference.py_str Reference.holds
      Reference.sort_desc MoreExamples.pages_of_two
      MoreExamples.three_contacts = (Ok r, MoreExamples.three_contacts)
    /\ (Z.of_nat (List.length (r_history r)) <= 2 <= 200)
    /\ r_page r = 1
    /\ 0 <= r_total r <= 3.
Proof.
  destruct (get_history Reference.fromisoformat Reference.py_str
              Reference.holds Reference.sort_desc MoreExamples.pages_of_two
              MoreExamples.three_contacts) as [[r|e] st'] eqn:E;
    [|vm_compute in E; discriminate E].
  destruct (history_page_is_bounded Reference.fromisoformat Reference.py_str
              Reference.holds Reference.sort_desc MoreExamples.pages_of_two
              MoreExamples.three_contacts st' r E) as (H1 & H2 & H3 & ->).
  exists r. split; [reflexivity|]. split; [exact H1|]. split; assumption.
Defined.

Lemma no_filter_counts_everything_witness :
  build_query Reference.fromisoformat MoreExamples.pages_of_two = Ok ∅
  /\ forall (st st' : store) (r : page_result),
       get_history Reference.fromisoformat Reference.py_str Reference.holds
         Reference.sort_desc MoreExamples.pages_of_two st = (Ok r, st') ->
       r_total r = Z.of_nat (List.length st).
Proof.
  apply (no_filter_counts_everything Reference.fromisoformat Reference.py_str
           Reference.holds Reference.sort_desc MoreExamples.pages_of_two);
    try reflexivity; left; reflexivity.
Defined.

Lemma history_records_are_stored_matches_witness :
  let d' := [ ("_id", VStr "507f1f77bcf86cd799439012");
              ("company_name", VStr "Bolt Ltd"); ("name", VStr "Al Ray");
              ("mobile", VStr "5550001111"); ("email", VStr "al@bolt.io");
              ("created_at", VDate (mk_datetime 2024 5 3 8 0 0 0 None)) ] in
  exists (d : doc) (v : value),
    In d MoreExamples.three_contacts
    /\ matches Reference.holds ∅ d = true
    /\ Dict.get "_id" d = Some v
    /\ d' = Dict.set "_id" (VStr (str_of_value Reference.py_str v)) d
    /\ forall k, k <> "_id" -> Dict.get k d' = Dict.get k d.
Proof.
  intros d'.
  destruct (get_history Reference.fromisoformat Reference.py_str
              Reference.holds Reference.sort_desc MoreExamples.pages_of_two
              MoreExamples.three_contacts) as [[r|e] st'] eqn:E;
    [|vm_compute in E; discriminate E].
  apply (history_records_are_stored_matches Reference.fromisoformat
           Reference.py_str Reference.holds Reference.sort_desc
           MoreExamples.pages_of_two ∅ MoreExamples.three_contacts st' r d').
  - intros k l x Hx.
    exact (Permutation_in x (ReferenceFacts.sort_desc_permutation k l) Hx).
  - reflexivity.
  - exact E.
  - vm_compute in E. injection E as <- _. left. reflexivity.
Defined.

(** ** [get_history]: the text filters *)

Section TextFilterProperties.

Variable fromisoformat : string -> option datetime.

(** X20: the ["$or"] entry of a built predicate, in every case: it is absent
    when search and phone are both blank; otherwise it holds the four
    search alternatives when the search is not blank, followed by the two
    phone alternatives when the phone filter is not blank. *)
Theorem or_group_of_search_and_phone (p : Params.t) (q : query) :
  build_query fromisoformat p = Ok q ->
  q !! "$or" =
    let by_search :=
      if PyStr.blank (Params.search p) then []
      else [ ("name", Regex (Params.search p) (Some "i"));
             ("company_name", Regex (Params.search p) (Some "i"));
             ("mobile", Regex (Params.search p) None);
             ("email", Regex (Params.search p) (Some "i")) ] in
    let by_phone :=
      if PyStr.blank (Params.phone p) then []
      else [ ("mobile", Regex (Params.phone p) None);
             ("mobile2", Regex (Params.phone p) None) ] in
    if PyStr.blank (Params.search p) && PyStr.blank (Params.phone p)
    then None else Some (Or (by_search ++ by_phone)).
Proof.
  intros Hq. unfold build_query in Hq.
  rewrite !PyStrFacts.truthy_strip in Hq.
  destruct (PyStr.blank (Params.search p));
    destruct (PyStr.blank (Params.company p));
    destruct (PyStr.blank (Params.phone p));
    destruct (PyStr.blank (Params.disposition p));
    cbn [negb andb] in Hq |- *; cbv zeta in Hq |- *; unfold get_or in Hq;
    rewrite ?lookup_insert_ne, ?lookup_insert_eq, ?lookup_empty in Hq by done;
    (apply ranges_frame with (k := "$or") in Hq as [L _]; [|done..]);
    rewrite L, ?lookup_insert_ne by done;
    first [ apply lookup_insert_eq | apply lookup_empty ].
Qed.

(** X21: a text filter that is white space only is ignored: the predicate is
    the one built with that filter left empty. *)
Theorem blank_text_filters_are_ignored (p : Params.t) :
  (PyStr.blank (Params.search p) = true ->
   build_query fromisoformat p =
   build_query fromisoformat
     (Params.mk (Params.page p) (Params.limit p) "" (Params.company p)
        (Params.phone p) (Params.disposition p)
        (Params.call_start p) (Params.call_end p)
        (Params.lead_start p) (Params.lead_end p)
        (Params.start p) (Params.end_ p)))
  /\ (PyStr.blank (Params.company p) = true ->
      build_query fromisoformat p =
      build_query fromisoformat
        (Params.mk (Params.page p) (Params.limit p) (Params.search p) ""
           (Params.phone p) (Params.disposition p)
           (Params.call_start p) (Params.call_end p)
           (Params.lead_start p) (Params.lead_end p)
           (Params.start p) (Params.end_ p)))
  /\ (PyStr.blank (Params.phone p) = true ->
      build_query fromisoformat p =
      build_query fromisoformat
        (Params.mk (Params.page p) (Params.limit p) (Params.search p)
           (Params.company p) "" (Params.disposition p)
           (Params.call_start p) (Params.call_end p)
           (Params.lead_start p) (Params.lead_end p)
           (Params.start p) (Params.end_ p)))
  /\ (PyStr.blank (Params.disposition p) = true ->
      build_query fromisoformat p =
      build_query fromisoformat
        (Params.mk (Params.page p) (Params.limit p) (Params.search p)
           (Params.company p) (Params.phone p) ""
           (Params.call_start p) (Params.call_end p)
           (Params.lead_start p) (Params.lead_end p)
           (Params.start p) (Params.end_ p))).
Proof.
  repeat split; intros H; unfold build_query;
    cbn [Params.search Params.phone Params.company Params.disposition
         Params.call_start Params.call_end Params.lead_start Params.lead_end
         Params.start Params.end_];
    rewrite !PyStrFacts.truthy_strip, H;
    change (PyStr.blank "") with true; reflexivity.
Qed.

End TextFilterProperties.

Lemma or_group_of_search_and_phone_witness :
  exists q : query,
    build_query Reference.fromisoformat MoreExamples.search_only = Ok q
    /\ q !! "$or" =
         Some (Or [ ("name", Regex "acme" (Some "i"));
                    ("company_name", Regex "acme" (Some "i"));
                    ("mobile", Regex "acme" None);
                    ("email", Regex "acme" (Some "i")) ]).
Proof.
  destruct (build_query Reference.fromisoformat MoreExamples.search_only)
    as [q|e] eqn:E; [|vm_compute in E; discriminate E].
  exists q. split; [reflexivity|].
  exact (or_group_of_search_and_phone Reference.fromisoformat
           MoreExamples.search_only q E).
Defined.

Lemma blank_text_filters_are_ignored_witness :
  build_query Reference.fromisoformat MoreExamples.blank_filters
  = build_query Reference.fromisoformat
      (Params.mk 1 50 "" " " "   " " " "2024-01-01" "" "" "" "" "2024-01-31").
Proof.
  apply (proj1 (blank_text_filters_are_ignored Reference.fromisoformat
                  MoreExamples.blank_filters)).
  reflexivity.
Defined.

(** ** [export_excel]: the sheet *)

Module SheetFacts.

Lemma fold_left_invariant {A B} (P : A -> Prop) (f : A -> B -> A)
      (l : list B) (a : A) :
  P a -> (forall a b, P a -> P (f a b)) -> P (fold_left f l a).
Proof.
  intros Ha Hf. revert a Ha. induction l as [|b r IH]; intros a Ha; simpl.
  - exact Ha.
  - apply IH, Hf, Ha.
Qed.

Lemma set_values (P : value -> Prop) (k : string) (v : value) (d : doc) :
  P v -> Forall P (map snd d) -> Forall P (map snd (Dict.set k v d)).
Proof.
  intros Hv. induction d as [|[k' v'] r IH]; simpl; intros Hd.
  - constructor; [exact Hv | constructor].
  - inversion Hd as [|? ? Hv' Hr]; subst.
    destruct (String.eqb k k'); simpl; constructor; auto.
Qed.

Lemma get_value (P : value -> Prop) (k : string) (v : value) (d : doc) :
  Forall P (map snd d) -> Dict.get k d = Some v -> P v.
Proof.
  induction d as [|[k' v'] r IH]; simpl; [discriminate|].
  intros Hd. inversion Hd as [|? ? Hv' Hr]; subst.
  destruct (String.eqb k k'); [intros [= <-]; exact Hv' | exact (IH Hr)].
Qed.

Lemma sanitize_value_scalar py_str strftime (v : value) :
  is_scalar (sanitize_value py_str strftime v) = true.
Proof. destruct v; reflexivity. Qed.

(** Every value of a sanitized document is a scalar. *)
Lemma sanitize_scalar py_str strftime (d : doc) :
  Forall (fun v => is_scalar v = true)
         (map snd (sanitize py_str strftime d)).
Proof.
  unfold sanitize. apply fold_left_invariant; [constructor|].
  intros safe kv Hsafe. apply set_values; [|exact Hsafe].
  apply sanitize_value_scalar.
Qed.

Lemma first_seen_nodup (records : list doc) :
  List.NoDup (Frame.first_seen records).
Proof.
  unfold Frame.first_seen. apply fold_left_invariant; [constructor|].
  intros acc d Hacc. apply fold_left_invariant; [exact Hacc|].
  intros acc' k Hacc'. destruct (existsb (String.eqb k) acc') eqn:E;
    [exact Hacc'|].
  apply NoDup_ListNoDup, NoDup_app. split; [|split].
  - apply NoDup_ListNoDup. exact Hacc'.
  - intros x Hx Hk. apply list_elem_of_In in Hx. apply list_elem_of_In in Hk.
    destruct Hk as [<- | []].
    assert (existsb (String.eqb k) acc' = true); [|congruence].
    apply existsb_exists. exists k. split; [exact Hx|].
    apply String.eqb_refl.
  - apply NoDup_singleton.
Qed.

Lemma of_records_names (records : list doc) :
  map fst (columns (Frame.of_records records)) = Frame.first_seen records.
Proof.
  unfold Frame.of_records. simpl. rewrite map_map. simpl. apply map_id.
Qed.

Lemma in_of_records (records : list doc) (c : string * list (option value)) :
  In c (columns (Frame.of_records records)) ->
  snd c = map (Dict.get (fst c)) records.
Proof.
  unfold Frame.of_records. simpl. intros H. apply in_map_iff in H.
  destruct H as (k & <- & _). reflexivity.
Qed.

Lemma in_remove_column (k : string) (df : DataFrame)
    (c : string * list (option value)) :
  In c (columns (Frame.remove_column k df)) ->
  In c (columns df) /\ fst c <> k.
Proof.
  unfold Frame.remove_column. simpl. intros H. apply filter_In in H as [Hin Hne].
  split; [exact Hin|]. intros <-. rewrite String.eqb_refl in Hne.
  discriminate.
Qed.

Lemma has_column_remove_column (k : string) (df : DataFrame) :
  Frame.has_column k (Frame.remove_column k df) = false.
Proof.
  unfold Frame.has_column, Frame.remove_column. simpl.
  induction (columns df) as [|c l IH]; simpl; [reflexivity|].
  destruct (String.eqb k (fst c)) eqn:Ec; simpl; [exact IH|].
  rewrite Ec. exact IH.
Qed.

Lemma remove_column_names_nodup (k : string) (df : DataFrame) :
  List.NoDup (map fst (columns df)) ->
  List.NoDup (map fst (columns (Frame.remove_column k df))).
Proof.
  unfold Frame.remove_column. cbn [columns].
  induction (columns df) as [|c l IH]; intros Hnd; [constructor|].
  inversion Hnd as [|? ? Hnotin Hnd']; subst.
  cbn [List.filter]. destruct (negb (String.eqb k (fst c)));
    [|exact (IH Hnd')].
  cbn [map]. constructor; [|exact (IH Hnd')].
  intros Hin. apply Hnotin. apply in_map_iff in Hin.
  destruct Hin as (c' & Hfst & Hin'). apply filter_In in Hin' as [Hin' _].
  apply in_map_iff. exists c'. auto.
Qed.

Lemma matches_singleton holds (k : string) (c : cond) (d : doc) :
  matches holds {[k := Field c]} d = holds d k c.
Proof.
  unfold matches. rewrite map_to_list_singleton. simpl.
  unfold clause_holds. simpl. apply andb_true_r.
Qed.

(** The two cursors of the export split the collection. *)
Lemma good_and_bad_lengths holds (k : string) (c : cond) (st : store) :
  (forall d, holds d k (Not c) = negb (holds d k c)) ->
  (List.length (find_all holds {[k := Field c]} st)
   + List.length (find_all holds {[k := Field (Not c)]} st))%nat
  = List.length st.
Proof.
  intros Hnot. unfold find_all.
  induction st as [|d r IH]; [reflexivity|].
  rewrite !filter_cons, !matches_singleton, Hnot.
  destruct (holds d k c); simpl negb;
    repeat case_decide; try discriminate; try congruence; simpl; lia.
Qed.

End SheetFacts.

Section SheetProperties.

Variable py_str : value -> string.
Variable strftime : string -> datetime -> string.
Variable holds : doc -> string -> cond -> bool.
Variable sort_desc : string -> list doc -> list doc.
Variable tmp_file : result string.
Variable to_excel : DataFrame -> string -> result unit.

Abbreviation export_sheet now st :=
  (export_excel py_str strftime holds sort_desc tmp_file to_excel now st).

(** The sheet of an export that answers: the frame of the exported
    records, as the handler collects them, which has no [created_at]
    column, or that frame with the column removed. *)
Lemma export_sheet_cases (now : datetime) (st st' : store)
    (r : file_response) :
  export_sheet now st = (Ok r, st') ->
  exists records : list doc,
    records =
      map (sanitize py_str strftime)
        (sort_desc "created_at"
           (find_all holds {["created_at" := Field (TypeIs "date")]} st)
         ++ find_all holds {["created_at" := Field (Not (TypeIs "date"))]} st)
    /\ ((Frame.has_column "created_at" (Frame.of_records records) = false
         /\ sheet r = Frame.of_records records)
        \/ sheet r
           = Frame.remove_column "created_at" (Frame.of_records records)).
Proof.
  intros H. eexists. split; [reflexivity|]. revert H.
  unfold export_excel, try_except, lift, raise. cbv beta zeta.
  unfold Frame.drop.
  match goal with
  | |- context [Frame.has_column "created_at" ?df] =>
      destruct (Frame.has_column "created_at" df) eqn:E
  end; cbn [rbind];
    (destruct tmp_file as [file_path|e]; cbn [rbind]; [|discriminate]);
    match goal with
    | |- context [to_excel ?df file_path] =>
        destruct (to_excel df file_path) as [w|e]; cbn [rbind];
          [|discriminate]
    end;
    intros [= <- _]; cbn [sheet]; auto.
Qed.

(** X22: the sheet never has a [created_at] column, whatever the collection
    holds. *)
Theorem export_has_no_created_at_column
        (now : datetime) (st st' : store) (r : file_response) :
  export_sheet now st = (Ok r, st') ->
  Frame.has_column "created_at" (sheet r) = false.
Proof.
  intros H.
  destruct (export_sheet_cases now st st' r H)
    as (records & _ & [[Hno ->] | ->]); [exact Hno|].
  apply SheetFacts.has_column_remove_column.
Qed.

(** X23: no two columns of the sheet have the same name. *)
Theorem export_columns_are_distinct
        (now : datetime) (st st' : store) (r : file_response) :
  export_sheet now st = (Ok r, st') ->
  List.NoDup (map fst (columns (sheet r))).
Proof.
  intros H.
  destruct (export_sheet_cases now st st' r H) as (records & _ & Hdf).
  pose proof (SheetFacts.first_seen_nodup records) as Hnd.
  rewrite <- SheetFacts.of_records_names in Hnd.
  destruct Hdf as [[_ ->] | ->]; [exact Hnd|].
  apply SheetFacts.remove_column_names_nodup. exact Hnd.
Qed.

(** X24: every cell of the sheet is missing or a scalar (a text, a number or a
    boolean): identifiers, dates, nulls, lists and nested documents have
    all been turned into text. *)
Theorem export_cells_are_scalars
        (now : datetime) (st st' : store) (r : file_response)
        (c : string * list (option value)) (v : value) :
  export_sheet now st = (Ok r, st') ->
  In c (columns (sheet r)) ->
  In (Some v) (snd c) ->
  is_scalar v = true.
Proof.
  intros H Hc Hv.
  destruct (export_sheet_cases now st st' r H) as (records & Hrec & Hdf).
  assert (Hc' : In c (columns (Frame.of_records records))).
  { destruct Hdf as [[_ Hdf] | Hdf]; rewrite Hdf in Hc; [exact Hc|].
    exact (proj1 (SheetFacts.in_remove_column _ _ _ Hc)). }
  rewrite (SheetFacts.in_of_records _ _ Hc') in Hv.
  apply in_map_iff in Hv. destruct Hv as (d & Hget & Hd).
  rewrite Hrec in Hd. apply in_map_iff in Hd. destruct Hd as (d0 & <- & _).
  exact (SheetFacts.get_value _ _ _ _
           (SheetFacts.sanitize_scalar py_str strftime d0) Hget).
Qed.

(** X25: when the store reads [$not] as the negation and its sort keeps the
    number of documents, every record of the collection is one row of the
    sheet, and every column has one cell per row. *)
Theorem export_has_one_row_per_record
        (now : datetime) (st st' : store) (r : file_response) :
  (forall d k c, holds d k (Not c) = negb (holds d k c)) ->
  (forall k l, List.length (sort_desc k l) = List.length l) ->
  export_sheet now st = (Ok r, st') ->
  n_rows (sheet r) = List.length st
  /\ Forall (fun c => List.length (snd c) = n_rows (sheet r))
            (columns (sheet r)).
Proof.
  intros Hnot Hsort H.
  destruct (export_sheet_cases now st st' r H) as (records & Hrec & Hdf).
  assert (Hlen : List.length records = List.length st).
  { rewrite Hrec, length_map, length_app, Hsort.
    apply SheetFacts.good_and_bad_lengths. intros d. apply Hnot. }
  assert (Hrows : n_rows (sheet r) = List.length records).
  { destruct Hdf as [[_ ->] | ->]; reflexivity. }
  split; [congruence|].
  apply Forall_forall. intros c Hc. apply list_elem_of_In in Hc.
  assert (Hc' : In c (columns (Frame.of_records records))).
  { destruct Hdf as [[_ Hdf] | Hdf]; rewrite Hdf in Hc; [exact Hc|].
    exact (proj1 (SheetFacts.in_remove_column _ _ _ Hc)). }
  rewrite (SheetFacts.in_of_records _ _ Hc'), length_map. congruence.
Qed.

End SheetProperties.

Lemma export_has_no_created_at_column_witness :
  exists r : file_response,
    export_excel Reference.py_str Reference.strftime Reference.holds
      Reference.sort_desc Reference.tmp_file Reference.to_excel
      Examples.noon MoreExamples.mixed_contacts
    = (Ok r, MoreExamples.mixed_contacts)
    /\ Frame.has_column "created_at" (sheet r) = false.
Proof.
  destruct (export_excel Reference.py_str Reference.strftime Reference.holds
              Reference.sort_desc Reference.tmp_file Reference.to_excel
      Examples.noon MoreExamples.mixed_contacts)
    as [[r|e] st'] eqn:E; [|vm_compute in E; discriminate E].
  exists r. split.
  - vm_compute in E. injection E as <- <-. reflexivity.
  - exact (export_has_no_created_at_column Reference.py_str
             Reference.strftime Reference.holds Reference.sort_desc
             Reference.tmp_file Reference.to_excel
             Examples.noon MoreExamples.mixed_contacts st' r E).
Defined.

Lemma export_columns_are_distinct_witness :
  exists r : file_response,
    export_excel Reference.py_str Reference.strftime Reference.holds
      Reference.sort_desc Reference.tmp_file Reference.to_excel
      Examples.noon MoreExamples.mixed_contacts
    = (Ok r, MoreExamples.mixed_contacts)
    /\ List.NoDup (map fst (columns (sheet r))).
Proof.
  destruct (export_excel Reference.py_str Reference.strftime Reference.holds
              Reference.sort_desc Reference.tmp_file Reference.to_excel
      Examples.noon MoreExamples.mixed_contacts)
    as [[r|e] st'] eqn:E; [|vm_compute in E; discriminate E].
  exists r. split.
  - vm_compute in E. injection E as <- <-. reflexivity.
  - exact (export_columns_are_distinct Reference.py_str
             Reference.strftime Reference.holds Reference.sort_desc
             Reference.tmp_file Reference.to_excel
             Examples.noon MoreExamples.mixed_contacts st' r E).
Defined.

Lemma export_cells_are_scalars_witness :
  is_scalar (VStr "") = true.
Proof.
  destruct (export_excel Reference.py_str Reference.strftime Reference.holds
              Reference.sort_desc Reference.tmp_file Reference.to_excel
      Examples.noon MoreExamples.mixed_contacts)
    as [[r|e] st'] eqn:E; [|vm_compute in E; discriminate E].
  apply (export_cells_are_scalars Reference.py_str Reference.strftime
           Reference.holds Reference.sort_desc Reference.tmp_file
           Reference.to_excel Examples.noon
           MoreExamples.mixed_contacts st' r
           ("mobile2", [Some (VStr ""); None]) (VStr "") E).
  - vm_compute in E. injection E as <- _. simpl. tauto.
  - simpl. tauto.
Defined.

Lemma export_has_one_row_per_record_witness :
  exists r : file_response,
    export_excel Reference.py_str Reference.strftime Reference.holds
      Reference.sort_desc Reference.tmp_file Reference.to_excel
      Examples.noon MoreExamples.mixed_contacts
    = (Ok r, MoreExamples.mixed_contacts)
    /\ n_rows (sheet r) = 2%nat
    /\ Forall (fun c => List.length (snd c) = n_rows (sheet r))
              (columns (sheet r)).
Proof.
  destruct (export_excel Reference.py_str Reference.strftime Reference.holds
              Reference.sort_desc Reference.tmp_file Reference.to_excel
      Examples.noon MoreExamples.mixed_contacts)
    as [[r|e] st'] eqn:E; [|vm_compute in E; discriminate E].
  exists r. split.
  - vm_compute in E. injection E as <- <-. reflexivity.
  - apply (export_has_one_row_per_record Reference.py_str
             Reference.strftime Reference.holds Reference.sort_desc
             Reference.tmp_file Reference.to_excel
             Examples.noon MoreExamples.mixed_contacts st' r).
    + intros d k c. reflexivity.
    + intros k l.
      apply Permutation_length, ReferenceFacts.sort_desc_permutation.
    + exact E.
Defined.

(** ** [submit_contact]: what is stored *)

Module TrimFacts.
Import PyStr.

Lemma lower_char_idempotent (c : ascii) :
  lower_char (lower_char c) = lower_char c.
Proof. destruct c as [[] [] [] [] [] [] [] []]; reflexivity. Qed.

Lemma lower_idempotent (s : string) : lower (lower s) = lower s.
Proof.
  induction s as [|c r IH]; simpl; [reflexivity|].
  rewrite lower_char_idempotent, IH. reflexivity.
Qed.

Lemma append_cons (c : ascii) (a b : string) :
  String.append (String c a) b = String c (String.append a b).
Proof. reflexivity. Qed.

Lemma append_nil_r (s : string) : String.append s "" = s.
Proof.
  induction s as [|c r IH]; [reflexivity|]. rewrite append_cons, IH.
  reflexivity.
Qed.

Lemma rev_onto_rev_onto (s a b : string) :
  rev_onto (rev_onto s a) b = rev_onto a (String.append s b).
Proof.
  revert a b. induction s as [|c r IH]; intros a b; [reflexivity|].
  simpl rev_onto at 2. rewrite IH. rewrite append_cons. reflexivity.
Qed.

Lemma reverse_involutive (s : string) : reverse (reverse s) = s.
Proof.
  unfold reverse. rewrite rev_onto_rev_onto. simpl. apply append_nil_r.
Qed.

Lemma lstrip_idempotent (s : string) : lstrip (lstrip s) = lstrip s.
Proof.
  induction s as [|c r IH]; simpl; [reflexivity|].
  destruct (isspace c) eqn:E; [exact IH|]. simpl. rewrite E. reflexivity.
Qed.

Lemma rstrip_idempotent (s : string) : rstrip (rstrip s) = rstrip s.
Proof.
  unfold rstrip. rewrite reverse_involutive, lstrip_idempotent. reflexivity.
Qed.

Lemma rev_onto_append (w v a : string) :
  rev_onto (String.append w v) a = rev_onto v (rev_onto w a).
Proof.
  revert a. induction w as [|c r IH]; intros a; [reflexivity|].
  rewrite append_cons. simpl. apply IH.
Qed.

Lemma rev_onto_acc (s a : string) :
  rev_onto s a = String.append (rev_onto s "") a.
Proof.
  revert a. induction s as [|c r IH]; intros a; [reflexivity|].
  simpl. rewrite (IH (String c a)), (IH (String c "")).
  generalize (rev_onto r ""). intros u.
  induction u as [|x u IHu]; [reflexivity|].
  rewrite !append_cons, IHu. reflexivity.
Qed.

Lemma lstrip_snoc (u : string) (c : ascii) :
  isspace c = false ->
  lstrip (String.append u (String c "")) =
  String.append (lstrip u) (String c "").
Proof.
  intros Hc. induction u as [|x u IH].
  - simpl. rewrite Hc. reflexivity.
  - rewrite append_cons. simpl. destruct (isspace x); [exact IH|].
    rewrite append_cons. reflexivity.
Qed.

(** Stripping on the right leaves a first character that is no space. *)
Lemma rstrip_head (c : ascii) (r : string) :
  isspace c = false ->
  rstrip (String c r) = String c (reverse (lstrip (reverse r))).
Proof.
  intros Hc. unfold rstrip, reverse. simpl rev_onto at 2.
  rewrite (rev_onto_acc r (String c "")), (lstrip_snoc _ c Hc).
  rewrite rev_onto_append. reflexivity.
Qed.

(** [s.strip()] has nothing left to strip. *)
Lemma strip_idempotent (s : string) : strip (strip s) = strip s.
Proof.
  unfold strip.
  destruct (blank s) eqn:B.
  - rewrite (PyStrFacts.lstrip_blank _ B). reflexivity.
  - destruct (PyStrFacts.lstrip_nonblank _ B) as (c & r & E & Hc).
    rewrite E, (rstrip_head c r Hc). simpl lstrip. rewrite Hc.
    rewrite <- (rstrip_head c r Hc). apply rstrip_idempotent.
Qed.

Lemma isspace_lower_char (c : ascii) : isspace (lower_char c) = isspace c.
Proof. destruct c as [[] [] [] [] [] [] [] []]; reflexivity. Qed.

Lemma lower_lstrip (s : string) : lower (lstrip s) = lstrip (lower s).
Proof.
  induction s as [|c r IH]; simpl; [reflexivity|].
  rewrite isspace_lower_char. destruct (isspace c); [exact IH | reflexivity].
Qed.

Lemma lower_rev_onto (s a : string) :
  lower (rev_onto s a) = rev_onto (lower s) (lower a).
Proof.
  revert a. induction s as [|c r IH]; intros a; [reflexivity|].
  simpl. apply IH.
Qed.

(** Lower-casing and stripping commute. *)
Lemma lower_strip (s : string) : lower (strip s) = strip (lower s).
Proof.
  unfold strip, rstrip, reverse.
  rewrite lower_rev_onto, lower_lstrip, lower_rev_onto, lower_lstrip.
  reflexivity.
Qed.

End TrimFacts.

Section StoredProperties.

Variable fromisoformat : string -> option datetime.

(** X26: what a successful create stores: the record is the last of the
    collection; its required text fields are trimmed (stripping one again
    changes nothing), its [email] is trimmed and lower-case, and its
    [email2] is null or lower-case. *)
Theorem submit_stores_normalized_text
        (utcnow : datetime) (oid : string) (f : Form.t) (st st' : store)
        (response : doc) :
  submit_contact fromisoformat utcnow oid f st = (Ok response, st') ->
  exists d : doc,
    st' = st ++ [d]
    /\ (forall k,
          In k ["company_name"; "name"; "designation"; "mobile"; "address";
                "email"] ->
          exists s, Dict.get k d = Some (VStr s) /\ PyStr.strip s = s)
    /\ (exists e, Dict.get "email" d = Some (VStr e) /\ PyStr.lower e = e)
    /\ (Dict.get "email2" d = Some VNull
        \/ exists e, Dict.get "email2" d = Some (VStr e)
                     /\ PyStr.lower e = e).
Proof.
  rewrite submit_contact_cases.
  destruct (fromisoformat (Form.call_date f)) as [call|]; [|discriminate].
  destruct (fromisoformat (Form.lead_entry_date f)) as [lead|];
    [|discriminate].
  destruct (existsb (Collection.has_id oid) st); [discriminate|].
  intros [= _ <-]. eexists. split; [reflexivity|]. split; [|split].
  - intros k Hk. simpl in Hk.
    destruct Hk as [<- | [<- | [<- | [<- | [<- | [<- | []]]]]]];
      eexists; (split; [reflexivity|]);
      try apply TrimFacts.strip_idempotent.
    rewrite <- TrimFacts.lower_strip, TrimFacts.strip_idempotent.
    reflexivity.
  - eexists. split; [reflexivity|]. apply TrimFacts.lower_idempotent.
  - simpl Dict.get. unfold strip_lower_or_none.
    destruct (Form.email2 f) as [e2|]; [|left; reflexivity].
    destruct (PyStr.truthy e2); [|left; reflexivity].
    right. eexists. split; [reflexivity|]. apply TrimFacts.lower_idempotent.
Qed.

End StoredProperties.

Lemma submit_stores_normalized_text_witness :
  exists d : doc,
    snd (submit_contact Reference.fromisoformat Examples.later
           Examples.another_id Examples.acme_form Examples.one_contact)
    = Examples.one_contact ++ [d]
    /\ exists e, Dict.get "email" d = Some (VStr e) /\ PyStr.lower e = e.
Proof.
  destruct (submit_contact Reference.fromisoformat Examples.later
              Examples.another_id Examples.acme_form Examples.one_contact)
    as [[response|e] st'] eqn:E; [|vm_compute in E; discriminate E].
  destruct (submit_stores_normalized_text Reference.fromisoformat
              Examples.later Examples.another_id Examples.acme_form
              Examples.one_contact st' response E) as (d & -> & _ & He & _).
  exists d. split; [reflexivity | exact He].
Defined.
